(** * pinger: a shallow embedding of the ICMP probe engine

    The Go sources embedded here are
    - [pinger/helpers/icmp.go]      (the probe loop and the reply classifier),
    - the statistics file of package [helpers] ([PingStats] and its methods),
    - the address resolution file of package [helpers] ([AddrResolution]),
    - the cobra root command that wires them together.

    Go's [int] is a 64-bit two's complement integer: it is a [Z] with the
    wrap-around written out ([GoInt]).  [float64] is Rocq's primitive binary64
    float, so the statistics compute with the very operations of the hardware.
    Bytes are [Z] in [0, 256).  [fmt.Printf] is a call record (format and
    arguments) appended to the standard output; [Sprintf] renders it. *)

From Stdlib Require Import ZArith List String Ascii Bool Lia DecimalString.
From Stdlib Require Import PrimFloat FloatOps SpecFloat.
Import ListNotations.

Open Scope Z_scope.

(* ================================================================== *)
(** * Go's machine integers *)

Module GoInt.

Definition min_int : Z := - 2 ^ 63.
Definition max_int : Z := 2 ^ 63 - 1.

(** The value an [int] holds after an arithmetic result [z]. *)
Definition wrap (z : Z) : Z := (z + 2 ^ 63) mod 2 ^ 64 - 2 ^ 63.

Definition add (a b : Z) : Z := wrap (a + b).
Definition sub (a b : Z) : Z := wrap (a - b).

(** [x++]. *)
Definition incr (a : Z) : Z := wrap (a + 1).

Definition InRange (z : Z) : Prop := min_int <= z <= max_int.

(** [uint16(x)], [byte(x)] and [uint32(x)] of an integer. *)
Definition to_uint16 (z : Z) : Z := z mod 2 ^ 16.
Definition to_byte (z : Z) : Z := z mod 2 ^ 8.
Definition to_uint32 (z : Z) : Z := z mod 2 ^ 32.

(** [float64(x)] of an [int]: the nearest binary64, ties to even. *)
Definition to_float64 (z : Z) : float :=
  SF2Prim (binary_normalize prec emax z 0 false).

End GoInt.

(* ================================================================== *)
(** * Package [math] *)

Module math.

(** [math.Sqrt]: the IEEE 754 square root. *)
Definition Sqrt (x : float) : float := PrimFloat.sqrt x.

(** [math.Pow(x, 2)], following the library's [pow] at the exponent [2]:
    the special cases first, then one squaring of the mantissa that
    [Frexp] returns and a final [Ldexp]. *)
Definition Pow2 (x : float) : float :=
  if (x =? 1)%float then 1%float
  else if is_nan x then nan
  else if (x =? 0)%float then 0%float
  else if is_infinity x then infinity
  else
    let (x1, xe) := Z.frexp x in
    let x1 := (x1 * x1)%float in
    let xe := 2 * xe in
    let (x1, xe) := if (x1 <? 0.5)%float then ((x1 + x1)%float, xe - 1)
                    else (x1, xe) in
    Z.ldexp (1 * x1)%float xe.

End math.

(* ================================================================== *)
(** * Package [fmt]: the verbs the program uses *)

Module fmt.

Local Open Scope string_scope.

(** ICMP message types are interface values of [icmp.Type]: the dynamic
    type ([ipv4.ICMPType] or [ipv6.ICMPType]) and the type number;
    [OtherType] is any other value of the interface, [nil] included. *)
Inductive ICMPType : Type :=
| ICMPv4 (t : Z)
| ICMPv6 (t : Z)
| OtherType.

(** A Go [error] by its message. *)
Abbreviation error := string (only parsing).

Inductive Arg : Type :=
| AInt (z : Z)
| AStr (s : string)
| AFloat (f : float)
| AErr (e : error)
| AType (t : ICMPType).

(** One call of [fmt.Printf]. *)
Record Call : Type := Printf { format : string; args : list Arg }.

(** [%d]. *)
Definition dec (z : Z) : string := NilZero.string_of_int (Z.to_int z).

Definition round_half_even (num den : Z) : Z :=
  let q := num / den in
  let r := num mod den in
  match 2 * r ?= den with
  | Lt => q
  | Gt => q + 1
  | Eq => if Z.even q then q else q + 1
  end.

(** The integer nearest to [m * 2^e * 10^p], ties to even. *)
Definition scaled (p : nat) (m : positive) (e : Z) : Z :=
  let k := 10 ^ Z.of_nat p in
  if (0 <=? e)%Z then Z.pos m * 2 ^ e * k
  else round_half_even (Z.pos m * k) (2 ^ (- e)).

(** [s] filled with zeros on the left up to the width [w]. *)
Fixpoint pad_left (fuel w : nat) (s : string) : string :=
  match fuel with
  | O => s
  | S fuel' => if (String.length s <? w)%nat
               then pad_left fuel' w ("0" ++ s) else s
  end.

(** [n / 10^p] written with exactly [p] decimals. *)
Definition fixed (p : nat) (n : Z) : string :=
  let k := 10 ^ Z.of_nat p in
  match p with
  | O => dec n
  | _ => dec (n / k) ++ "." ++ pad_left p p (dec (n mod k))
  end.

(** [%.pf] of a [float64]: the exact binary value rounded to [p] decimals,
    ties to even, as [strconv] does. *)
Definition fixed_float (p : nat) (f : float) : string :=
  match Prim2SF f with
  | S754_nan => "NaN"
  | S754_infinity false => "+Inf"
  | S754_infinity true => "-Inf"
  | S754_zero s => (if s then "-" else "") ++ fixed p 0
  | S754_finite s m e => (if s then "-" else "") ++ fixed p (scaled p m e)
  end.

Definition digit_of (c : ascii) : option nat :=
  let n := nat_of_ascii c in
  if ((48 <=? n) && (n <=? 57))%nat then Some (n - 48)%nat else None.

(** The rendering of a call.  [name] is the [String] method of the ICMP
    types (a table of the [x/net] packages).  A verb without a fitting
    argument gives [None]; Go prints a [%!verb] notice there, and no call of
    the program reaches it. *)
Fixpoint Sprintf (name : ICMPType -> string) (f : string) (a : list Arg)
  : option string :=
  match f with
  | EmptyString => Some EmptyString
  | String "%" (String "%" r) =>
      option_map (String "%") (Sprintf name r a)
  | String "%" (String "d" r) =>
      match a with
      | AInt z :: a' => option_map (append (dec z)) (Sprintf name r a')
      | _ => None
      end
  | String "%" (String "s" r) =>
      match a with
      | AStr s :: a' => option_map (append s) (Sprintf name r a')
      | _ => None
      end
  | String "%" (String "v" r) =>
      match a with
      | AErr s :: a' => option_map (append s) (Sprintf name r a')
      | AType t :: a' => option_map (append (name t)) (Sprintf name r a')
      | _ => None
      end
  | String "%" (String "." (String p (String "f" r))) =>
      match digit_of p, a with
      | Some p, AFloat x :: a' =>
          option_map (append (fixed_float p x)) (Sprintf name r a')
      | _, _ => None
      end
  | String "%" _ => None
  | String c r => option_map (String c) (Sprintf name r a)
  end.

(** The newline that ends the formats of the program. *)
Definition nl : string := String "010" EmptyString.

(** The newline characters of a string. *)
Fixpoint newlines (s : string) : nat :=
  match s with
  | EmptyString => O
  | String c r => ((if Ascii.eqb c "010" then 1 else 0) + newlines r)%nat
  end.

Fixpoint ends_with_newline (s : string) : bool :=
  match s with
  | EmptyString => false
  | String c EmptyString => Ascii.eqb c "010"
  | String _ r => ends_with_newline r
  end.

End fmt.
Export fmt.

(* ================================================================== *)
(** * Statistics ([PingStats]) *)

(** Statistics for ping results. *)
Record PingStats : Type := mkPingStats {
  transmitted : Z;     (* requests sent *)
  received    : Z;     (* replies received *)
  errors      : Z;     (* errors like Destination Host Unreachable *)
  min         : float; (* min time RTT *)
  max         : float; (* max time RTT *)
  sum1        : float; (* cumulative sum RTT *)
  sum2        : float; (* squared sum RTT *)
  mean        : float; (* mean RTT *)
  stddev      : float  (* std deviation RTT *)
}.

(** [PingStats{}]: every field zero. *)
Definition zeroStats : PingStats :=
  mkPingStats 0 0 0 0%float 0%float 0%float 0%float 0%float 0%float.

Definition set_transmitted (v : Z) (s : PingStats) : PingStats :=
  mkPingStats v (received s) (errors s) (min s) (max s) (sum1 s) (sum2 s)
    (mean s) (stddev s).
Definition set_received (v : Z) (s : PingStats) : PingStats :=
  mkPingStats (transmitted s) v (errors s) (min s) (max s) (sum1 s) (sum2 s)
    (mean s) (stddev s).
Definition set_errors (v : Z) (s : PingStats) : PingStats :=
  mkPingStats (transmitted s) (received s) v (min s) (max s) (sum1 s) (sum2 s)
    (mean s) (stddev s).
Definition set_min (v : float) (s : PingStats) : PingStats :=
  mkPingStats (transmitted s) (received s) (errors s) v (max s) (sum1 s)
    (sum2 s) (mean s) (stddev s).
Definition set_max (v : float) (s : PingStats) : PingStats :=
  mkPingStats (transmitted s) (received s) (errors s) (min s) v (sum1 s)
    (sum2 s) (mean s) (stddev s).
Definition set_sum1 (v : float) (s : PingStats) : PingStats :=
  mkPingStats (transmitted s) (received s) (errors s) (min s) (max s) v
    (sum2 s) (mean s) (stddev s).
Definition set_sum2 (v : float) (s : PingStats) : PingStats :=
  mkPingStats (transmitted s) (received s) (errors s) (min s) (max s) (sum1 s)
    v (mean s) (stddev s).
Definition set_mean (v : float) (s : PingStats) : PingStats :=
  mkPingStats (transmitted s) (received s) (errors s) (min s) (max s) (sum1 s)
    (sum2 s) v (stddev s).
Definition set_stddev (v : float) (s : PingStats) : PingStats :=
  mkPingStats (transmitted s) (received s) (errors s) (min s) (max s) (sum1 s)
    (sum2 s) (mean s) v.

(** [iterativeStats]: min, max, S1 = sum(Ti), S2 = sum(Ti ^ 2). *)
Definition iterativeStats (time : float) (stats : PingStats) : PingStats :=
  (* min is initialized as the first RTT *)
  let stats := if received stats =? 1 then set_min time stats else stats in
  let stats := if (time <? min stats)%float then set_min time stats
               else stats in
  let stats := if (max stats <? time)%float then set_max time stats
               else stats in
  let stats := set_sum1 (sum1 stats + time)%float stats in
  set_sum2 (sum2 stats + math.Pow2 time)%float stats.

(** [finalStats]: mean = S1 / received, stddev = sqrt(S2 / n - mean ^ 2). *)
Definition finalStats (stats : PingStats) : PingStats :=
  let stats :=
    set_mean (sum1 stats / GoInt.to_float64 (received stats))%float stats in
  set_stddev
    (math.Sqrt (sum2 stats / GoInt.to_float64 (received stats)
                - math.Pow2 (mean stats))%float)
    stats.

(** The [dropPercentage] local of [PrintStatistics]. *)
Definition dropPercentage (stats : PingStats) : float :=
  if 0 <? transmitted stats then
    (GoInt.to_float64 (GoInt.sub (transmitted stats) (received stats))
     / GoInt.to_float64 (transmitted stats) * 100)%float
  else 0%float.

Definition headerCall : Call :=
  Printf (nl ++ "--- %s ping statistics ---" ++ nl) [AStr "target"].

Definition countsCall (stats : PingStats) : Call :=
  Printf ("%d packets transmitted, %d received, %d errors, %.1f%% packet loss"
            ++ nl)
         [AInt (transmitted stats); AInt (received stats);
          AInt (errors stats); AFloat (dropPercentage stats)].

Definition latencyCall (stats : PingStats) : Call :=
  Printf ("round-trip min/avg/max/stddev = %.3f/%.3f/%.3f/%.3f ms" ++ nl)
         [AFloat (min stats); AFloat (mean stats); AFloat (max stats);
          AFloat (stddev stats)].

(** [PrintStatistics]: the statistics it leaves behind and what it prints. *)
Definition PrintStatistics (stats : PingStats) : PingStats * list Call :=
  if 0 <? received stats then
    let stats' := finalStats stats in
    (stats', [headerCall; countsCall stats; latencyCall stats'])
  else (stats, [headerCall; countsCall stats]).

(* ================================================================== *)
(** * Package [golang.org/x/net/icmp]: the wire format *)

(** The result of a call that returns [(value, error)]. *)
Inductive Result (A : Type) : Type :=
| Ok (a : A)
| Err (e : error).
Arguments Ok {A} a.
Arguments Err {A} e.

Definition bytes_of_string (s : string) : list Z :=
  map (fun c => Z.of_nat (nat_of_ascii c)) (list_ascii_of_string s).

Module icmp.

Definition ProtocolICMP : Z := 1.
Definition ProtocolIPv6ICMP : Z := 58.

(** A message body.  [Echo] is the body the program builds and reads; the
    other bodies are kept as the bytes they were parsed from, since the
    program only looks at the type of the message that carries them. *)
Inductive MessageBody : Type :=
| Echo (ID Seq : Z) (Data : list Z)
| DstUnreach (b : list Z)
| TimeExceeded (b : list Z)
| ParamProb (b : list Z)
| PacketTooBig (b : list Z)
| ExtendedEchoRequest (b : list Z)
| ExtendedEchoReply (b : list Z)
| RawBody (Data : list Z).

Record Message : Type := mkMessage {
  MsgType  : ICMPType;
  Code     : Z;
  Checksum : Z;
  Body     : option MessageBody
}.

Definition errMessageTooShort : error := "message too short"%string.
Definition errInvalidProtocol : error := "invalid protocol"%string.
Definition errNoExtension : error := "no extension"%string.

(** [binary.BigEndian.PutUint16] and [Uint16]. *)
Definition putUint16 (v : Z) : list Z :=
  [Z.shiftr (GoInt.to_uint16 v) 8; Z.land (GoInt.to_uint16 v) 255].
Definition getUint16 (hi lo : Z) : Z := Z.lor (Z.shiftl hi 8) lo.

(** [Marshal] of a body; the method of [Echo] for the body built here. *)
Definition marshalBody (b : MessageBody) : list Z :=
  match b with
  | Echo ID Seq Data => putUint16 ID ++ putUint16 Seq ++ Data
  | DstUnreach b | TimeExceeded b | ParamProb b | PacketTooBig b
  | ExtendedEchoRequest b | ExtendedEchoReply b | RawBody b => b
  end.

(** The sum of the 16-bit little-endian words of [b] in a [uint32], the
    loop of [checksum]. *)
Fixpoint sum16 (b : list Z) (s : Z) : Z :=
  match b with
  | x :: y :: r => sum16 r (GoInt.to_uint32 (s + Z.lor (Z.shiftl y 8) x))
  | [x] => GoInt.to_uint32 (s + x)
  | [] => s
  end.

Definition checksum (b : list Z) : Z :=
  let s := sum16 b 0 in
  let s := GoInt.to_uint32 (Z.shiftr s 16 + Z.land s 65535) in
  let s := GoInt.to_uint32 (s + Z.shiftr s 16) in
  Z.lxor (GoInt.to_uint16 s) 65535.

(** [Marshal(nil)] of a message: no pseudo header, so an ICMPv6 message
    leaves with a zero checksum (the kernel fills it in). *)
Definition Marshal (m : Message) : Result (list Z) :=
  match MsgType m with
  | OtherType => Err errInvalidProtocol
  | ICMPv4 typ =>
      let b := [GoInt.to_byte typ; GoInt.to_byte (Code m); 0; 0]
                 ++ match Body m with
                    | Some mb => marshalBody mb
                    | None => []
                    end in
      let s := checksum b in
      match b with
      | t :: c :: b2 :: b3 :: rest =>
          Ok (t :: c :: Z.lxor b2 (GoInt.to_byte s)
                :: Z.lxor b3 (GoInt.to_byte (Z.shiftr s 8)) :: rest)
      | _ => Ok b
      end
  | ICMPv6 typ =>
      Ok ([GoInt.to_byte typ; GoInt.to_byte (Code m); 0; 0]
            ++ match Body m with
               | Some mb => marshalBody mb
               | None => []
               end)
  end.

(** [parseEcho]. *)
Definition parseEcho (b : list Z) : Result MessageBody :=
  match b with
  | i1 :: i0 :: s1 :: s0 :: data =>
      Ok (Echo (getUint16 i1 i0) (getUint16 s1 s0) data)
  | _ => Err errMessageTooShort
  end.

(** The parsers of the other bodies fail on fewer than four bytes. *)
Definition parseMin4 (mk : list Z -> MessageBody) (b : list Z)
  : Result MessageBody :=
  if (Z.of_nat (List.length b) <? 4) then Err errMessageTooShort
  else Ok (mk b).

Section Parse.

(** Whether [parseExtensions] accepts the extension structures of an
    extended echo request; the one parser whose answer rests on more
    than the length of the body. *)
Variable extensionsOK : list Z -> bool.

Definition parseExtendedEchoRequest (b : list Z) : Result MessageBody :=
  if (Z.of_nat (List.length b) <? 4) then Err errMessageTooShort
  else if extensionsOK (skipn 4 b) then Ok (ExtendedEchoRequest b)
  else Err errNoExtension.

(** The table [parseFns] followed by its call; a type outside the table
    is parsed by [parseRawBody]. *)
Definition parseBody (typ : ICMPType) (b : list Z) : Result MessageBody :=
  match typ with
  | ICMPv4 3 | ICMPv6 1 => parseMin4 DstUnreach b
  | ICMPv4 11 | ICMPv6 3 => parseMin4 TimeExceeded b
  | ICMPv4 12 | ICMPv6 4 => parseMin4 ParamProb b
  | ICMPv4 8 | ICMPv4 0 | ICMPv6 128 | ICMPv6 129 => parseEcho b
  | ICMPv4 42 | ICMPv6 160 => parseExtendedEchoRequest b
  | ICMPv4 43 | ICMPv6 161 => parseMin4 ExtendedEchoReply b
  | ICMPv6 2 => parseMin4 PacketTooBig b
  | _ => Ok (RawBody b)
  end.

(** [icmp.ParseMessage]. *)
Definition ParseMessage (proto : Z) (b : list Z) : Result Message :=
  match b with
  | b0 :: b1 :: b2 :: b3 :: rest =>
      let withType typ :=
        match parseBody typ rest with
        | Ok body => Ok (mkMessage typ b1 (getUint16 b2 b3) (Some body))
        | Err e => Err e
        end in
      if proto =? ProtocolICMP then withType (ICMPv4 b0)
      else if proto =? ProtocolIPv6ICMP then withType (ICMPv6 b0)
      else Err errInvalidProtocol
  | _ => Err errMessageTooShort
  end.

End Parse.

End icmp.

(** The type numbers of packages [ipv4] and [ipv6] that the program names. *)
Module ipv4.
Definition ICMPTypeEchoReply : ICMPType := ICMPv4 0.
Definition ICMPTypeDestinationUnreachable : ICMPType := ICMPv4 3.
Definition ICMPTypeEcho : ICMPType := ICMPv4 8.
Definition ICMPTypeTimeExceeded : ICMPType := ICMPv4 11.
End ipv4.

Module ipv6.
Definition ICMPTypeDestinationUnreachable : ICMPType := ICMPv6 1.
Definition ICMPTypeTimeExceeded : ICMPType := ICMPv6 3.
Definition ICMPTypeEchoRequest : ICMPType := ICMPv6 128.
Definition ICMPTypeEchoReply : ICMPType := ICMPv6 129.
Definition ICMPTypeRouterSolicitation : ICMPType := ICMPv6 133.
Definition ICMPTypeRouterAdvertisement : ICMPType := ICMPv6 134.
Definition ICMPTypeNeighborSolicitation : ICMPType := ICMPv6 135.
Definition ICMPTypeNeighborAdvertisement : ICMPType := ICMPv6 136.
End ipv6.

(** Equality of two values of the interface [icmp.Type], and a [case] of a
    [switch] over such a value. *)
Definition ICMPType_eqb (a b : ICMPType) : bool :=
  match a, b with
  | ICMPv4 x, ICMPv4 y => x =? y
  | ICMPv6 x, ICMPv6 y => x =? y
  | OtherType, OtherType => true
  | _, _ => false
  end.

Definition isCase (t : ICMPType) (values : list ICMPType) : bool :=
  existsb (ICMPType_eqb t) values.

(* ================================================================== *)
(** * [pinger/helpers/icmp.go] *)

Definition protocolICMP : Z := 1.    (* IPv4 ICMP protocol number *)
Definition protocolICMPv6 : Z := 58. (* IPv6 ICMP protocol number *)
Definition pingDataSize : Z := 64.   (* Standard ping packet size *)
Definition defaultTTL : Z := 64.     (* Default time to live *)

(** [ICMPInfo] is everything user - configurable of a PINGER. *)
Record ICMPInfo : Type := mkICMPInfo {
  IP    : string;
  Iface : string;
  TTL   : Z;
  CNT   : Z
}.

(** What a run has done so far: the statistics it owns and the calls of
    [fmt.Printf] it has made, oldest first. *)
Record Run : Type := mkRun {
  stats  : PingStats;
  stdout : list Call
}.

Definition say (c : Call) (r : Run) : Run :=
  mkRun (stats r) (stdout r ++ [c]).
Definition update (f : PingStats -> PingStats) (r : Run) : Run :=
  mkRun (f (stats r)) (stdout r).

(** [stats.transmitted++], [stats.received++] and [stats.errors++]. *)
Definition incTransmitted (s : PingStats) : PingStats :=
  set_transmitted (GoInt.incr (transmitted s)) s.
Definition incReceived (s : PingStats) : PingStats :=
  set_received (GoInt.incr (received s)) s.
Definition incErrors (s : PingStats) : PingStats :=
  set_errors (GoInt.incr (errors s)) s.

(** An error of a read: its text, and whether it is a [net.Error] whose
    [Timeout()] holds. *)
Record ReadError : Type := mkReadError {
  readText  : error;
  isTimeout : bool
}.

(** What the network does with one probe: the outcome of the write, then of
    the read (the datagram, the TTL or hop limit of the control message when
    there is one, the peer) and the time between the two in microseconds. *)
Record Exchange : Type := mkExchange {
  writeErr      : option error;
  readErr       : option ReadError;
  datagram      : list Z;
  control       : option Z;
  peerAddr      : string;
  elapsedMicros : Z
}.

(** The operating system and the network around a run. *)
Record World : Type := mkWorld {
  Getpid          : Z;
  LookupHost      : string -> Result (list string);
  InterfaceByName : string -> Result Z;
  ListenPacket    : string -> string -> option error;
  wire            : Z -> Exchange
}.

(** [getInterface]: [None] is the exit of the process with status 1, after
    the returned call; otherwise the interface index, if a name was given. *)
Definition getInterface (w : World) (interfaceName : string)
  : Call + option Z :=
  if String.eqb interfaceName "" then inr None
  else match InterfaceByName w interfaceName with
       | Err err =>
           inl (Printf ("Error finding interface %s: %v" ++ nl)
                       [AStr interfaceName; AErr err])
       | Ok idx => inr (Some idx)
       end.

(** The data of every echo request. *)
Definition echoData : list Z :=
  bytes_of_string "Never stop learning because life never stops teaching!!!".

(** [constructMarshalledMessage] handles populating the message, and
    marshalls it into bytes to send on the wire. *)
Definition constructMarshalledMessage (pid : Z) (msgType : ICMPType)
    (seqNum : Z) : Result (list Z) :=
  let request :=
    icmp.mkMessage msgType 0 0
      (Some (icmp.Echo (Z.land pid 65535) seqNum echoData)) in
  icmp.Marshal request.

(** [sendICMPRequest]: the error of the write; a protocol that is neither
    ICMP nor ICMPv6 writes nothing. *)
Definition sendICMPRequest (x : Exchange) (proto : Z) : option error :=
  if (proto =? protocolICMP) || (proto =? protocolICMPv6) then writeErr x
  else None.

(** [recvICMPRequest]: the reply (at most the 1500 bytes of the buffer), the
    elapsed milliseconds, the received TTL, the peer and the error. *)
Definition recvICMPRequest (x : Exchange) (proto : Z)
  : list Z * float * Z * string * option ReadError :=
  let elapsedMs := (GoInt.to_float64 (elapsedMicros x) / 1000)%float in
  if (proto =? protocolICMP) || (proto =? protocolICMPv6) then
    let receivedTTL := match control x with
                       | Some ttl => ttl
                       | None => defaultTTL
                       end in
    (firstn 1500 (datagram x), elapsedMs, receivedTTL, peerAddr x, readErr x)
  else ([], elapsedMs, defaultTTL, EmptyString, None).

Section Engine.

Variable extensionsOK : list Z -> bool.

(** [printICMPResponse] handles the different types of ICMP replies
    received.  The cases of the [switch] on [reply.Type] are tried from
    the top, each against the values it lists. *)
Definition printICMPResponse (proto : Z) (data : list Z) (peer : string)
    (seq receivedTTL : Z) (elapsedMs : float) (r : Run) : Run :=
  match icmp.ParseMessage extensionsOK proto data with
  | Err err =>
      update incErrors
        (say (Printf ("Error parsing ICMP response: %v" ++ nl) [AErr err]) r)
  | Ok reply =>
      let typ := icmp.MsgType reply in
      (* Expected case *)
      if isCase typ [ipv4.ICMPTypeEchoReply; ipv6.ICMPTypeEchoReply] then
        match icmp.Body reply with
        | Some (icmp.Echo _ echoSeq _) =>
            let r := update incReceived r in
            (* valid receipt => update statistics *)
            let r := update (iterativeStats elapsedMs) r in
            say (Printf
                   ("%d bytes from %s: icmp_seq=%d ttl=%d time=%.3f ms"
                      ++ nl)
                   [AInt (Z.of_nat (List.length data)); AStr peer;
                    AInt echoSeq; AInt receivedTTL; AFloat elapsedMs]) r
        | _ =>
            update incErrors
              (say (Printf ("Invalid ICMP echo reply" ++ nl) []) r)
        end
      else if isCase typ [ipv4.ICMPTypeDestinationUnreachable;
                          ipv6.ICMPTypeDestinationUnreachable] then
        say (Printf ("From %s icmp_seq=%d: Destination Host Unreachable"
                       ++ nl) [AStr peer; AInt seq])
            (update incErrors r)
      else if isCase typ [ipv4.ICMPTypeTimeExceeded;
                          ipv6.ICMPTypeTimeExceeded] then
        let r := update incErrors r in
        if proto =? protocolICMP then
          say (Printf ("From %s icmp_seq=%d: Time To Live Exceeded" ++ nl)
                      [AStr peer; AInt seq]) r
        else
          say (Printf ("From %s icmp_seq=%d: Hop Limit Exceeded" ++ nl)
                      [AStr peer; AInt seq]) r
      else if isCase typ [ipv6.ICMPTypeNeighborAdvertisement;
                          ipv6.ICMPTypeNeighborSolicitation;
                          ipv6.ICMPTypeRouterAdvertisement;
                          ipv6.ICMPTypeRouterSolicitation] then
        say (Printf
               ("From %s icmp_seq=%d: IPv6 specific information: %v" ++ nl)
               [AStr peer; AInt seq; AType typ]) r
      else
        (* Uncaught error... *)
        say (Printf ("From %s icmp_seq=%d: ICMP type: %v" ++ nl)
                    [AStr peer; AInt seq; AType typ])
            (update incErrors r)
  end.

(** [printReadError] is an error handler for receiving the ICMP(4/6)
    reply. *)
Definition printReadError (err : ReadError) (seq : Z) (r : Run) : Run :=
  if isTimeout err then
    update incErrors
      (say (Printf ("Request timeout for icmp_seq %d" ++ nl) [AInt seq]) r)
  else
    update incErrors
      (say (Printf ("Error reading ICMP response: %v" ++ nl)
                   [AErr (readText err)]) r).

Variable w : World.

(** What the body of the loop does once [stats.transmitted] is counted:
    encode, send, receive, classify. *)
Definition attempt (proto : Z) (msgType : ICMPType) (i : Z) (r : Run)
  : Run :=
  (* Construct the required message *)
  match constructMarshalledMessage (Getpid w) msgType i with
  | Err err =>
      update incErrors
        (say (Printf ("Error generating ICMP message: %v" ++ nl)
                     [AErr err]) r)
  | Ok request =>
      match sendICMPRequest (wire w i) proto with
      | Some err =>
          update incErrors
            (say (Printf ("Error sending ICMP packet: %v" ++ nl)
                         [AErr err]) r)
      | None =>
          (* Receive the required response *)
          match recvICMPRequest (wire w i) proto with
          | (_, _, _, _, Some err) => printReadError err i r
          | (reply, elapsedMs, receivedTTL, peer, None) =>
              (* Format what was received *)
              printICMPResponse proto reply peer i receivedTTL elapsedMs r
          end
      end
  end.

(** The body of the packet loop, for the sequence number [i]. *)
Definition probe (proto : Z) (msgType : ICMPType) (i : Z) (r : Run)
  : Run :=
  attempt proto msgType i (update incTransmitted r).

(** [for i := range n]: [body] at [i], [i + 1], ..., [n] times in all. *)
Fixpoint rangeFrom (body : Z -> Run -> Run) (n : nat) (i : Z) (r : Run)
  : Run :=
  match n with
  | O => r
  | S n' => rangeFrom body n' (i + 1) (body i r)
  end.

(** The packet loop after [k] of its iterations, entered with [r]. *)
Definition probes (proto : Z) (msgType : ICMPType) (r : Run) (k : nat)
  : Run :=
  rangeFrom (probe proto msgType) k 0 r.

(** How a handler ends: it returns, or the process exits on the way. *)
Inductive Ending : Type :=
| Returned
| Exited (status : Z).

Definition banner (info : ICMPInfo) : Call :=
  if negb (String.eqb (Iface info) "") then
    Printf ("PINGERING %s: %d data bytes (via %s)" ++ nl)
           [AStr (IP info); AInt pingDataSize; AStr (Iface info)]
  else
    Printf ("PINGERING %s: %d data bytes" ++ nl)
           [AStr (IP info); AInt pingDataSize].

(** The two handlers share their text but for the initial statistics, the
    socket and the type of the request.  The goroutine that waits for an
    interrupt, prints the statistics and exits is left out: this is the
    run that no signal cuts short. *)
Definition handler (start : PingStats) (proto : Z)
    (network listenAddr what : string) (msgType : ICMPType)
    (info : ICMPInfo) : Run * Ending :=
  (* iteratively calculated statistics *)
  match getInterface w (Iface info) with
  | inl c => (mkRun start [c], Exited 1)
  | inr hostIface =>
      (* Start pinging *)
      let r := mkRun start [banner info] in
      (* setup one end of connection *)
      match ListenPacket w network listenAddr with
      | Some err =>
          (say (Printf ("Error creating " ++ what ++ " connection: %v" ++ nl)
                       [AErr err]) r, Exited 1)
      | None =>
          let r := probes proto msgType r (Z.to_nat (CNT info)) in
          let r := update finalStats r in
          let (s, out) := PrintStatistics (stats r) in
          (mkRun s (stdout r ++ out), Returned)
      end
  end.

(** [ICMP4Handler] handles PINGER when using AF_INET. *)
Definition ICMP4Handler (info : ICMPInfo) : Run * Ending :=
  handler zeroStats protocolICMP "ip4:icmp" "0.0.0.0" "ICMP"
          ipv4.ICMPTypeEcho info.

(** [ICMP6Handler] handles PINGER when using AF_INET6. *)
Definition ICMP6Handler (info : ICMPInfo) : Run * Ending :=
  handler (set_min (-1)%float zeroStats) protocolICMPv6 "ip6:ipv6-icmp" "::"
          "ICMPv6" ipv6.ICMPTypeEchoRequest info.

End Engine.

(* ================================================================== *)
(** * Packages [strings], [regexp] and [net] *)

Definition string_of_bytes (l : list Z) : string :=
  string_of_list_ascii (map (fun z => ascii_of_nat (Z.to_nat z)) l).

Module strings.

(** One white space rune at the head of the UTF-8 text [l] taken off:
    the six of ASCII, U+0085, U+00A0, U+1680, U+2000 to U+200A, U+2028,
    U+2029, U+202F, U+205F and U+3000. *)
Fixpoint trimLeft (l : list Z) : list Z :=
  match l with
  | 9 :: r | 10 :: r | 11 :: r | 12 :: r | 13 :: r | 32 :: r => trimLeft r
  | 194 :: 133 :: r | 194 :: 160 :: r => trimLeft r
  | 225 :: 154 :: 128 :: r => trimLeft r
  | 226 :: 128 :: x :: r =>
      if ((128 <=? x) && (x <=? 138)) || (x =? 168) || (x =? 169)
         || (x =? 175)
      then trimLeft r else l
  | 226 :: 129 :: 159 :: r => trimLeft r
  | 227 :: 128 :: 128 :: r => trimLeft r
  | _ => l
  end.

(** The same at the other end, on the reversed text. *)
Fixpoint trimRightRev (l : list Z) : list Z :=
  match l with
  | 9 :: r | 10 :: r | 11 :: r | 12 :: r | 13 :: r | 32 :: r =>
      trimRightRev r
  | 133 :: 194 :: r | 160 :: 194 :: r => trimRightRev r
  | 128 :: 154 :: 225 :: r => trimRightRev r
  | 159 :: 129 :: 226 :: r => trimRightRev r
  | 128 :: 128 :: 227 :: r => trimRightRev r
  | x :: 128 :: 226 :: r =>
      if ((128 <=? x) && (x <=? 138)) || (x =? 168) || (x =? 169)
         || (x =? 175)
      then trimRightRev r else l
  | _ => l
  end.

(** [strings.TrimSpace]. *)
Definition TrimSpace (s : string) : string :=
  string_of_bytes
    (rev (trimRightRev (rev (trimLeft (bytes_of_string s))))).

(** [strings.Contains(s, "..")]. *)
Fixpoint ContainsDotDot (s : string) : bool :=
  match s with
  | String "." ((String "." _) as r) => true
  | String _ r => ContainsDotDot r
  | EmptyString => false
  end.

End strings.

Module regexp.

(** Regular expressions over bytes, matched by derivatives. *)
Inductive Regexp : Type :=
| Void
| Empty
| Class (p : ascii -> bool)
| Cat (a b : Regexp)
| Alt (a b : Regexp)
| Star (a : Regexp).

Fixpoint nullable (r : Regexp) : bool :=
  match r with
  | Void | Class _ => false
  | Empty | Star _ => true
  | Cat a b => nullable a && nullable b
  | Alt a b => nullable a || nullable b
  end.

Fixpoint deriv (c : ascii) (r : Regexp) : Regexp :=
  match r with
  | Void | Empty => Void
  | Class p => if p c then Empty else Void
  | Cat a b => if nullable a then Alt (Cat (deriv c a) b) (deriv c b)
               else Cat (deriv c a) b
  | Alt a b => Alt (deriv c a) (deriv c b)
  | Star a => Cat (deriv c a) (Star a)
  end.

(** [MatchString] of an expression anchored by [^] and [$]: the whole
    text is in the language. *)
Fixpoint MatchString (r : Regexp) (s : string) : bool :=
  match s with
  | EmptyString => nullable r
  | String c s' => MatchString (deriv c r) s'
  end.

Definition between (lo hi : nat) (c : ascii) : bool :=
  ((lo <=? nat_of_ascii c) && (nat_of_ascii c <=? hi))%nat.

(** [[a-zA-Z]], [[a-zA-Z0-9]], [[a-zA-Z0-9\-]] and [\.]. *)
Definition alpha (c : ascii) : bool := between 97 122 c || between 65 90 c.
Definition alnum (c : ascii) : bool := alpha c || between 48 57 c.
Definition alnumDash (c : ascii) : bool := alnum c || Ascii.eqb c "-".
Definition dot (c : ascii) : bool := Ascii.eqb c ".".

End regexp.

Module net.

Definition isDigit (c : Z) : bool := (48 <=? c) && (c <=? 57).

(** The loop of [netip.parseIPv4]: [fields] are the octets closed by a
    dot so far, [val] and [digLen] the octet being read, [first] whether
    the index is 0 and [prev] the byte before. *)
Fixpoint parseIPv4Loop (s : list Z) (first : bool) (prev : Z)
    (fields : list Z) (val digLen : Z) : option (list Z) :=
  match s with
  | [] => if (List.length fields <? 3)%nat then None
          else Some (fields ++ [val])
  | c :: r =>
      if isDigit c then
        if (digLen =? 1) && (val =? 0) then None
        else
          let val := val * 10 + c - 48 in
          if 255 <? val then None
          else parseIPv4Loop r false c fields val (digLen + 1)
      else if c =? 46 then
        if first || (match r with [] => true | _ => false end)
           || (prev =? 46) then None
        else if (List.length fields =? 3)%nat then None
        else parseIPv4Loop r false c (fields ++ [val]) 0 0
      else None
  end.

Definition parseIPv4 (s : list Z) : option (list Z) :=
  parseIPv4Loop s true 0 [] 0 0.

Definition hexDigit (c : Z) : option Z :=
  if isDigit c then Some (c - 48)
  else if (97 <=? c) && (c <=? 102) then Some (c - 97 + 10)
  else if (65 <=? c) && (c <=? 70) then Some (c - 65 + 10)
  else None.

(** The group of hexadecimal digits at the head of [s]: [None] on a fifth
    digit or a value over 16 bits, otherwise the number of digits, their
    value and the text after them. *)
Fixpoint hexGroup (s : list Z) (off : nat) (acc : Z)
  : option (nat * Z * list Z) :=
  match s with
  | c :: r =>
      match hexDigit c with
      | Some d =>
          let acc := Z.shiftl acc 4 + d in
          if (3 <? off)%nat then None
          else if 65535 <? acc then None
          else hexGroup r (S off) acc
      | None => Some (off, acc, s)
      end
  | [] => Some (off, acc, s)
  end.

(** The loop of [netip.parseIPv6], which runs while fewer than 16 bytes
    are set, so eight times at most: the bytes set, the place of the
    ellipsis and the text left over. *)
Fixpoint parseIPv6Loop (fuel : nat) (s ip : list Z) (ellipsis : option nat)
  : option (list Z * option nat * list Z) :=
  match fuel with
  | O => Some (ip, ellipsis, s)
  | S fuel' =>
      if (16 <=? List.length ip)%nat then Some (ip, ellipsis, s)
      else
        match hexGroup s 0 0 with
        | None => None
        | Some (O, _, _) => None
        | Some (_, acc, (46 :: _)) =>
            (* followed by a dot: the trailing IPv4 *)
            if (match ellipsis with None => true | _ => false end)
               && negb (List.length ip =? 12)%nat then None
            else if (16 <? List.length ip + 4)%nat then None
            else match parseIPv4 s with
                 | Some ip4 => Some (ip ++ ip4, ellipsis, [])
                 | None => None
                 end
        | Some (_, acc, rest) =>
            (* Save this 16-bit chunk. *)
            let ip := ip ++ [Z.shiftr acc 8; Z.land acc 255] in
            match rest with
            | [] => Some (ip, ellipsis, [])
            | 58 :: [] => None
            | 58 :: 58 :: rest' =>
                match ellipsis with
                | Some _ => None
                | None =>
                    match rest' with
                    | [] => Some (ip, Some (List.length ip), [])
                    | _ => parseIPv6Loop fuel' rest' ip
                             (Some (List.length ip))
                    end
                end
            | 58 :: rest' => parseIPv6Loop fuel' rest' ip ellipsis
            | _ => None
            end
        end
  end.

Definition contains (c : Z) (s : list Z) : bool := existsb (Z.eqb c) s.

(** [netip.parseIPv6] for a text without zone; [net.ParseIP] refuses a
    zone, and an empty one is an error already. *)
Definition parseIPv6 (s : list Z) : option (list Z) :=
  if contains 37 s then None
  else
    let (s, ellipsis) :=
      match s with
      | 58 :: 58 :: r => (r, Some O)
      | _ => (s, None)
      end in
    match s, ellipsis with
    | [], Some _ => Some (repeat 0 16)
    | _, _ =>
        match parseIPv6Loop 8 s [] ellipsis with
        | None => None
        | Some (ip, ellipsis, rest) =>
            match rest with
            | _ :: _ => None
            | [] =>
                if (List.length ip <? 16)%nat then
                  match ellipsis with
                  | None => None
                  | Some e =>
                      Some (firstn e ip
                              ++ repeat 0 (16 - List.length ip)
                              ++ skipn e ip)
                  end
                else match ellipsis with
                     | Some _ => None
                     | None => Some ip
                     end
            end
        end
    end.

(** [netip.ParseAddr]: the first of [.], [:] and [%] chooses the parser. *)
Fixpoint parseAddrScan (whole s : list Z) : option (list Z) :=
  match s with
  | [] => None
  | c :: r =>
      if c =? 46 then
        match parseIPv4 whole with
        | Some f => Some (repeat 0 10 ++ [255; 255] ++ f)
        | None => None
        end
      else if c =? 58 then parseIPv6 whole
      else if c =? 37 then None
      else parseAddrScan whole r
  end.

(** [net.ParseIP]: the 16 bytes of the address, [None] for [nil]. *)
Definition ParseIP (s : string) : option (list Z) :=
  parseAddrScan (bytes_of_string s) (bytes_of_string s).

(** [IP.To16]. *)
Definition To16 (ip : list Z) : option (list Z) :=
  if (List.length ip =? 4)%nat then Some (repeat 0 10 ++ [255; 255] ++ ip)
  else if (List.length ip =? 16)%nat then Some ip
  else None.

(** [IP.To4]. *)
Definition To4 (ip : list Z) : option (list Z) :=
  if (List.length ip =? 4)%nat then Some ip
  else if (List.length ip =? 16)%nat
          && forallb (Z.eqb 0) (firstn 10 ip)
          && (nth 10 ip 0 =? 255) && (nth 11 ip 0 =? 255)
  then Some (skipn 12 ip)
  else None.

End net.

(* ================================================================== *)
(** * Address resolution *)

(** [AddrOptions] are flags received from the command line; pinger will
    exit if both are set true, and will use IPv4 if none are set. *)
Record AddrOptions : Type := mkAddrOptions {
  V4 : bool; (* use IPv4 *)
  V6 : bool  (* use IPv6 *)
}.

(** [UnMarshalledAddr] is the type returned after preprocessing the user -
    given hostname or address. *)
Record UnMarshalledAddr : Type := mkUnMarshalledAddr {
  Addr   : string; (* address for pinger to use *)
  IsIPv6 : bool    (* protocol used: default is IPv4! *)
}.

(** The zero value of [UnMarshalledAddr]. *)
Definition noAddr : UnMarshalledAddr := mkUnMarshalledAddr "" false.

(** [valIPv6], a wrapper using package net's [ParseIP] and [To16]. *)
Definition valIPv6 (addr : string) : bool * option error :=
  match net.ParseIP addr with
  | None => (false, Some (addr ++ " is not a valid IP address")%string)
  | Some ip =>
      match net.To16 ip with
      | Some _ => (true, None)
      | None => (false, None)
      end
  end.

(** [valIPv4], a wrapper using package net's [ParseIP] and [To4]. *)
Definition valIPv4 (addr : string) : bool * option error :=
  match net.ParseIP addr with
  | None => (false, Some (addr ++ " is not a valid IP address")%string)
  | Some ip =>
      match net.To4 ip with
      | Some _ => (true, None)
      | None => (false, None)
      end
  end.

(** [hostnameRegexRaw]:
    [^(([a-zA-Z0-9]|[a-zA-Z0-9][a-zA-Z0-9\-]*[a-zA-Z0-9])\.)*([a-zA-Z]{1,})$] *)
Definition hostnameRegex : regexp.Regexp :=
  let alnum := regexp.Class regexp.alnum in
  let label :=
    regexp.Alt alnum
      (regexp.Cat alnum
         (regexp.Cat (regexp.Star (regexp.Class regexp.alnumDash)) alnum)) in
  let alpha := regexp.Class regexp.alpha in
  regexp.Cat
    (regexp.Star (regexp.Cat label (regexp.Class regexp.dot)))
    (regexp.Cat alpha (regexp.Star alpha)).

(** [validateHostname] sees if a given host string is a plausible domain
    name. *)
Definition validateHostname (host : string) : bool :=
  let host := strings.TrimSpace host in
  (* Ensure no consecutive dots *)
  if strings.ContainsDotDot host then false
  else regexp.MatchString hostnameRegex host.

Section Resolution.

Variable w : World.

(** [HostToAddr] determines an IP address for the given host. *)
Definition HostToAddr (host : string) (options : AddrOptions)
  : UnMarshalledAddr * option error :=
  if V4 options && V6 options then
    (noAddr, Some "only one -4 or -6 option may be specified"%string)
  else
    match LookupHost w host with
    | Err err => (noAddr, Some err)
    | Ok listOfIPs =>
        match negb (V4 options) && negb (V6 options), listOfIPs with
        | true, ip :: _ =>
            let (isIPv6, _) := valIPv6 ip in
            (mkUnMarshalledAddr ip isIPv6, None)
        | _, _ =>
            (fix range (l : list string) : UnMarshalledAddr * option error :=
               match l with
               | [] =>
                   (* Empty list caught here *)
                   (noAddr,
                    Some ("could not resolve hostname " ++ host
                          ++ ". Please ensure a valid hostname is used")%string)
               | ip :: l' =>
                   if V4 options && fst (valIPv4 ip) then
                     (mkUnMarshalledAddr ip false, None)
                   else if V6 options && fst (valIPv6 ip) then
                     (mkUnMarshalledAddr ip true, None)
                   else range l'
               end) listOfIPs
        end
    end.

(** [AddrResolution] resolves a host string to an appropriate Internet
    Protocol address. *)
Definition AddrResolution (host : string) (options : AddrOptions)
  : UnMarshalledAddr * option error :=
  if validateHostname host then HostToAddr host options
  else
    match valIPv6 host with
    | (_, Some err) => (noAddr, Some err)
    | (isIPv6, None) =>
        if V6 options && isIPv6 then (mkUnMarshalledAddr host true, None)
        else
          (* For now, default is resolve to IPv4 *)
          match valIPv4 host with
          | (_, Some err) => (noAddr, Some err)
          | (isIPv4, None) =>
              if isIPv4 then (mkUnMarshalledAddr host false, None)
              else if negb (Bool.eqb (V6 options) isIPv6) then
                (noAddr,
                 Some ("option -6 specified does not match given IP: "
                         ++ host)%string)
              else if negb (Bool.eqb (V4 options) isIPv4) then
                (noAddr,
                 Some ("option -4 specified does not match given IP: "
                         ++ host)%string)
              else
                (noAddr, Some "warning: an unexpected error occurred"%string)
          end
    end.

End Resolution.

(* ================================================================== *)
(** * The root command *)

(** [int8(x)] and [int(x)] of the flags [-t] and [-c]. *)
Definition int8_range (z : Z) : Prop := -128 <= z <= 127.

(** What the process did: it left with status 1 after printing the error
    of the resolution, before any handler ran, or it ran one handler. *)
Inductive Ran : Type :=
| ResolutionFailed (message : string)
| RanICMP4 (info : ICMPInfo) (r : Run * Ending)
| RanICMP6 (info : ICMPInfo) (r : Run * Ending).

(** The [Run] action of [rootCmd]. *)
Definition rootCmd (extensionsOK : list Z -> bool) (w : World)
    (v4Flag v6Flag : bool) (ifaceFlag : string) (ttlFlag cntFlag : Z)
    (addr : string) : Ran :=
  let addrOptions := mkAddrOptions v4Flag v6Flag in
  match AddrResolution w addr addrOptions with
  | (_, Some err) => ResolutionFailed err
  | (verified, None) =>
      let icmpInfo :=
        mkICMPInfo (Addr verified) ifaceFlag ttlFlag cntFlag in
      if negb (IsIPv6 verified) then
        RanICMP4 icmpInfo (ICMP4Handler extensionsOK w icmpInfo)
      else
        RanICMP6 icmpInfo (ICMP6Handler extensionsOK w icmpInfo)
  end.


(* ================================================================== *)
(** * The vocabulary of the statements *)

(** The two handlers differ by the address family alone. *)
Inductive Family : Type :=
| IPv4
| IPv6.

Definition protoOf (f : Family) : Z :=
  match f with
  | IPv4 => protocolICMP
  | IPv6 => protocolICMPv6
  end.

(** The type of the echo request a handler sends, and of the reply to it. *)
Definition requestOf (f : Family) : ICMPType :=
  match f with
  | IPv4 => ipv4.ICMPTypeEcho
  | IPv6 => ipv6.ICMPTypeEchoRequest
  end.

Definition replyOf (f : Family) : ICMPType :=
  match f with
  | IPv4 => ipv4.ICMPTypeEchoReply
  | IPv6 => ipv6.ICMPTypeEchoReply
  end.

(** The statistics a handler starts from. *)
Definition startOf (f : Family) : PingStats :=
  match f with
  | IPv4 => zeroStats
  | IPv6 => set_min (-1)%float zeroStats
  end.

Definition ICMPHandler (f : Family) (extensionsOK : list Z -> bool)
    (w : World) (info : ICMPInfo) : Run * Ending :=
  match f with
  | IPv4 => ICMP4Handler extensionsOK w info
  | IPv6 => ICMP6Handler extensionsOK w info
  end.

(** The packet loop of the handler of [f] after [k] iterations. *)
Definition packetLoop (extensionsOK : list Z -> bool) (w : World)
    (f : Family) (info : ICMPInfo) (k : nat) : Run :=
  probes extensionsOK w (protoOf f) (requestOf f)
    (mkRun (startOf f) [banner info]) k.

(** The three counters of a statistics value. *)
Definition counters (s : PingStats) : Z * Z * Z :=
  (transmitted s, received s, errors s).

(** What one step of the loop may do to the counters, [transmitted] left
    alone: count a reply, count an error, or neither. *)
Inductive CounterStep (s s' : PingStats) : Prop :=
| StepReceived :
    transmitted s' = transmitted s ->
    received s' = GoInt.incr (received s) ->
    errors s' = errors s -> CounterStep s s'
| StepError :
    transmitted s' = transmitted s ->
    received s' = received s ->
    errors s' = GoInt.incr (errors s) -> CounterStep s s'
| StepNone :
    transmitted s' = transmitted s ->
    received s' = received s ->
    errors s' = errors s -> CounterStep s s'.

(** The counters after [k] probes, none of them wrapped around. *)
Definition Counted (k : nat) (s : PingStats) : Prop :=
  transmitted s = Z.of_nat k
  /\ 0 <= received s /\ 0 <= errors s
  /\ received s + errors s <= transmitted s.

(** A call of [Printf] that writes one line: its format has one newline,
    the last character. *)
Definition oneLine (c : Call) : Prop :=
  newlines (format c) = 1%nat /\ ends_with_newline (format c) = true.

Ltac split_ifs :=
  repeat match goal with
         | |- context [if ?c then _ else _] => destruct c
         end.






(** The types the [switch] of [printICMPResponse] names, case by case. *)
Definition echoReplyTypes : list ICMPType :=
  [ipv4.ICMPTypeEchoReply; ipv6.ICMPTypeEchoReply].

(** The round trip of an echo request: what [constructMarshalledMessage]
    produces parses, under the protocol of the same family, to an echo body
    with the identifier [pid & 0xffff] and the sequence number [seq]. *)
Definition RoundTrip (extensionsOK : list Z -> bool) (pid : Z) (f : Family)
    (seq : Z) : Prop :=
  exists request reply payload,
    constructMarshalledMessage pid (requestOf f) seq = Ok request
    /\ icmp.ParseMessage extensionsOK (protoOf f) request = Ok reply
    /\ icmp.MsgType reply = requestOf f
    /\ icmp.Body reply = Some (icmp.Echo (Z.land pid 65535) seq payload).

(** The probe is answered by an echo reply after [us] microseconds. *)
Definition Replies (extensionsOK : list Z -> bool) (f : Family)
    (x : Exchange) (us : Z) : Prop :=
  writeErr x = None /\ readErr x = None /\ elapsedMicros x = us
  /\ exists reply id echoSeq payload,
       icmp.ParseMessage extensionsOK (protoOf f) (firstn 1500 (datagram x))
       = Ok reply
       /\ icmp.MsgType reply = replyOf f
       /\ icmp.Body reply = Some (icmp.Echo id echoSeq payload).

(** The probe is sent and the read runs into its deadline. *)
Definition TimesOut (x : Exchange) : Prop :=
  writeErr x = None
  /\ exists err, readErr x = Some err /\ isTimeout err = true.

(** The text of the counts line of [PrintStatistics] for a loss already
    written out. *)
Definition countsLine (s : PingStats) (loss : string) : string :=
  (dec (transmitted s) ++ " packets transmitted, "
   ++ dec (received s) ++ " received, "
   ++ dec (errors s) ++ " errors, "
   ++ loss ++ "% packet loss" ++ nl)%string.

(** An echo reply to the probe [seq] of the process [pid], as bytes. *)
Definition echoReplyBytes (f : Family) (pid seq : Z) : list Z :=
  match icmp.Marshal
          (icmp.mkMessage (replyOf f) 0 0
             (Some (icmp.Echo (Z.land pid 65535) seq echoData)))
  with
  | Ok b => b
  | Err _ => []
  end.

(** A network on which the probe 2 times out and the probes 0, 1, 3 and 4
    are answered after 10, 20, 30 and 40 ms. *)
Definition lossyWire (f : Family) (pid : Z) (i : Z) : Exchange :=
  if i =? 2 then
    mkExchange None (Some (mkReadError "i/o timeout" true)) [] None "" 4000000
  else
    mkExchange None None (echoReplyBytes f pid i) (Some 57) "192.0.2.1"
      (if i <? 2 then (i + 1) * 10000 else i * 10000).

Definition lossyWorld (f : Family) : World :=
  mkWorld 4242 (fun _ => Err "no such host"%string)
    (fun _ => Err "no such network interface"%string)
    (fun _ _ => None) (lossyWire f 4242).

(** A network that answers no probe. *)
Definition silentWorld : World :=
  mkWorld 4242 (fun _ => Err "no such host"%string)
    (fun _ => Err "no such network interface"%string)
    (fun _ _ => None)
    (fun _ => mkExchange None (Some (mkReadError "i/o timeout" true)) []
                None "" 4000000).









(** A resolver that answers every name with an IPv6 address followed by an
    IPv4 address. *)
Definition dualStackWorld : World :=
  mkWorld 4242
    (fun _ => Ok ["2001:db8::1"; "93.184.216.34"]%string)
    (fun _ => Err "no such network interface"%string)
    (fun _ _ => None)
    (fun _ => mkExchange None (Some (mkReadError "i/o timeout" true)) []
                None "" 4000000).

(** A byte of a dotted decimal address: a digit or the dot. *)
Definition dotted (c : Z) : Prop := net.isDigit c = true \/ c = 46.


(* ================================================================== *)
(** * More vocabulary: the handlers' sockets, the lines, the samples *)

(** The network and the address a handler listens on. *)
Definition networkOf (f : Family) : string :=
  match f with
  | IPv4 => "ip4:icmp"
  | IPv6 => "ip6:ipv6-icmp"
  end.

Definition listenAddrOf (f : Family) : string :=
  match f with
  | IPv4 => "0.0.0.0"
  | IPv6 => "::"
  end.

(** The name of the connection in the error of [icmp.ListenPacket]. *)
Definition connectionOf (f : Family) : string :=
  match f with
  | IPv4 => "ICMP"
  | IPv6 => "ICMPv6"
  end.

(** A call whose verbs and arguments agree, so that it renders. *)
Definition Renders (name : ICMPType -> string) (c : Call) : Prop :=
  exists text, Sprintf name (format c) (args c) = Some text.

(** The calls that print an IPv6 discovery message. *)
Definition isInformational (c : Call) : bool :=
  String.eqb (format c)
    ("From %s icmp_seq=%d: IPv6 specific information: %v" ++ nl).

Definition informational (out : list Call) : Z :=
  Z.of_nat (List.length (filter isInformational out)).

(** The latency [recvICMPRequest] computes for the probe [i]. *)
Definition latency (w : World) (i : Z) : float :=
  (GoInt.to_float64 (elapsedMicros (wire w i)) / 1000)%float.


(** A byte. *)
Definition isByte (z : Z) : Prop := 0 <= z < 256.

(** What a probe does to the statistics [s] once it is counted in
    [transmitted], with the call [c] it prints: a reply is recorded, an
    error is counted, or a discovery message is printed and nothing
    counted. *)
Inductive Outcome (s : PingStats) (c : Call) (s' : PingStats) : Prop :=
| OutReply (ms : float) :
    s' = iterativeStats ms (incReceived s) ->
    isInformational c = false -> Outcome s c s'
| OutError :
    s' = incErrors s -> isInformational c = false -> Outcome s c s'
| OutInformational :
    s' = s -> isInformational c = true -> Outcome s c s'.


(** A text [net.ParseIP] accepts. *)
Definition isAddress (s : string) : bool :=
  match net.ParseIP s with
  | Some _ => true
  | None => false
  end.

(** The error of [HostToAddr] for an answer without a usable address. *)
Definition couldNotResolve (host : string) : error :=
  ("could not resolve hostname " ++ host
   ++ ". Please ensure a valid hostname is used")%string.


(** A byte of the UTF-8 encoding of a white space rune: one of the six of
    ASCII, or a byte of a longer encoding. *)
Definition spaceByte (x : Z) : Prop := 9 <= x <= 13 \/ x = 32 \/ 128 <= x.

(** Case analysis along the patterns of [trimLeft] and [trimRightRev]:
    the scrutinee of the outermost [match] is taken apart until the
    result of the function shows. *)
Ltac crack_term t :=
  lazymatch t with
  | match ?v with [] => _ | _ :: _ => _ end => destruct v as [|? ?]
  | match ?v with Z0 => _ | Zpos _ => _ | Zneg _ => _ end => destruct v
  | match ?v with xI _ => _ | xO _ => _ | xH => _ end => destruct v
  | if ?c then _ else _ => destruct c eqn:?
  end.

Ltac crack :=
  repeat (cbv beta iota;
          match goal with
          | |- (forall x, _ -> In x ?R \/ _) /\ _ => crack_term R
          end).

(** The test of the third byte of U+2000 to U+200A, U+2028, U+2029 and
    U+202F, as inequalities. *)
Ltac space_cond :=
  repeat match goal with
         | H : (_ || _) = true |- _ => apply orb_true_iff in H; destruct H
         | H : (_ && _) = true |- _ => apply andb_true_iff in H; destruct H
         | H : (_ <=? _) = true |- _ => apply Z.leb_le in H
         | H : (_ =? _) = true |- _ => apply Z.eqb_eq in H
         end.

(** The bytes a pattern takes off are white space bytes. *)
Ltac peel Hin :=
  cbn [In] in Hin;
  repeat (destruct Hin as [<-|Hin];
          [right; unfold spaceByte; space_cond; lia|]).

(** The language of a regular expression. *)
Inductive Lang : regexp.Regexp -> list ascii -> Prop :=
| LangEmpty : Lang regexp.Empty []
| LangClass (p : ascii -> bool) (c : ascii) :
    p c = true -> Lang (regexp.Class p) [c]
| LangCat (a b : regexp.Regexp) (s1 s2 : list ascii) :
    Lang a s1 -> Lang b s2 -> Lang (regexp.Cat a b) (s1 ++ s2)
| LangAltL (a b : regexp.Regexp) (s : list ascii) :
    Lang a s -> Lang (regexp.Alt a b) s
| LangAltR (a b : regexp.Regexp) (s : list ascii) :
    Lang b s -> Lang (regexp.Alt a b) s
| LangStarNil (a : regexp.Regexp) : Lang (regexp.Star a) []
| LangStarApp (a : regexp.Regexp) (s1 s2 : list ascii) :
    Lang a s1 -> Lang (regexp.Star a) s2 ->
    Lang (regexp.Star a) (s1 ++ s2).

(** Every character class of [r] lies within [P]. *)
Fixpoint classes (P : ascii -> Prop) (r : regexp.Regexp) : Prop :=
  match r with
  | regexp.Void | regexp.Empty => True
  | regexp.Class p => forall c, p c = true -> P c
  | regexp.Cat a b | regexp.Alt a b => classes P a /\ classes P b
  | regexp.Star a => classes P a
  end.

(** A character of a host name: a letter, a digit, the hyphen or the dot. *)
Definition hostChar (c : ascii) : Prop :=
  regexp.alnumDash c || regexp.dot c = true.

(** The bytes [TrimSpace] leaves of the bytes [l]. *)
Definition trimmed (l : list Z) : list Z :=
  rev (strings.trimRightRev (rev (strings.trimLeft l))).

(** Two dots in a row, as [strings.ContainsDotDot] on a list. *)
Fixpoint dotdot (s : list ascii) : bool :=
  match s with
  | c :: ((d :: _) as r) => (regexp.dot c && regexp.dot d) || dotdot r
  | _ => false
  end.

Definition firstDot (s : list ascii) : bool :=
  match s with
  | c :: _ => regexp.dot c
  | [] => false
  end.

Definition lastDot (s : list ascii) : bool := firstDot (rev s).

(** A probe that ends in a counted error, with the line it prints. *)
Ltac outcome_error :=
  eexists; split; [reflexivity|];
  split; [apply OutError; reflexivity|];
  split; [eexists; reflexivity|reflexivity].

(** The cases of a byte compared with a constant below 64. *)
Ltac destruct_byte c :=
  let p := fresh "p" in
  destruct c as [|p|p];
  [| do 6 (try destruct p as [p|p|]) |].


(** The two lines of the engine that stand behind a test that cannot
    fail. *)
Definition neverPrinted (c : Call) : bool :=
  String.eqb (format c) ("Error generating ICMP message: %v" ++ nl)
  || String.eqb (format c) ("Invalid ICMP echo reply" ++ nl).

(* ================================================================== *)
(** * Go integers that stay in range *)

Module GoIntFacts.

Lemma wrap_in_range (z : Z) : GoInt.InRange z -> GoInt.wrap z = z.
Proof.
  unfold GoInt.InRange, GoInt.wrap, GoInt.min_int, GoInt.max_int.
  intros H. rewrite Z.mod_small; lia.
Qed.

Lemma incr_below_max (a : Z) :
  GoInt.min_int <= a < GoInt.max_int -> GoInt.incr a = a + 1.
Proof.
  intros H. unfold GoInt.incr. apply wrap_in_range.
  unfold GoInt.InRange, GoInt.min_int, GoInt.max_int in *. lia.
Qed.

Lemma sub_in_range (a b : Z) :
  GoInt.InRange (a - b) -> GoInt.sub a b = a - b.
Proof. apply wrap_in_range. Qed.

End GoIntFacts.

(* ================================================================== *)
(** * The counters of the statistics *)

Lemma iterativeStats_counters (t : float) (s : PingStats) :
  counters (iterativeStats t s) = counters s.
Proof. unfold iterativeStats, counters. split_ifs; reflexivity. Qed.

Lemma iterativeStats_transmitted t s :
  transmitted (iterativeStats t s) = transmitted s.
Proof.
  exact (f_equal (fun c => fst (fst c)) (iterativeStats_counters t s)).
Qed.

Lemma iterativeStats_received t s :
  received (iterativeStats t s) = received s.
Proof.
  exact (f_equal (fun c => snd (fst c)) (iterativeStats_counters t s)).
Qed.

Lemma iterativeStats_errors t s :
  errors (iterativeStats t s) = errors s.
Proof. exact (f_equal snd (iterativeStats_counters t s)). Qed.

Lemma finalStats_counters (s : PingStats) :
  counters (finalStats s) = counters s.
Proof. reflexivity. Qed.

Lemma PrintStatistics_counters (s : PingStats) :
  counters (fst (PrintStatistics s)) = counters s.
Proof. unfold PrintStatistics. destruct (0 <? received s); reflexivity. Qed.

Section EngineFacts.

Variable extensionsOK : list Z -> bool.
Variable w : World.

(** Every path through [printICMPResponse] makes one call of [Printf],
    and moves the counters by one [CounterStep]. *)
Lemma printICMPResponse_step proto data peer seq ttl ms r :
  let r' := printICMPResponse extensionsOK proto data peer seq ttl ms r in
  CounterStep (stats r) (stats r')
  /\ exists c, stdout r' = stdout r ++ [c] /\ oneLine c.
Proof.
  unfold printICMPResponse.
  destruct (icmp.ParseMessage extensionsOK proto data) as [reply|err].
  2:{ split; [apply StepError; reflexivity | eexists; repeat split]. }
  cbv zeta.
  destruct (isCase _ _).
  { destruct (icmp.Body reply) as [[]|]; cbn [stats stdout update say];
      (split; [ first [ apply StepError; reflexivity
                      | apply StepReceived;
                        [ rewrite iterativeStats_transmitted
                        | rewrite iterativeStats_received
                        | rewrite iterativeStats_errors ]; reflexivity ]
              | eexists; repeat split ]). }
  destruct (isCase _ _).
  { split; [apply StepError; reflexivity | eexists; repeat split]. }
  destruct (isCase _ _).
  { destruct (proto =? protocolICMP);
      (split; [apply StepError; reflexivity | eexists; repeat split]). }
  destruct (isCase _ _).
  { split; [apply StepNone; reflexivity | eexists; repeat split]. }
  split; [apply StepError; reflexivity | eexists; repeat split].
Qed.

Lemma printReadError_step err seq r :
  let r' := printReadError err seq r in
  CounterStep (stats r) (stats r')
  /\ exists c, stdout r' = stdout r ++ [c] /\ oneLine c.
Proof.
  unfold printReadError.
  destruct (isTimeout err);
    (split; [apply StepError; reflexivity | eexists; repeat split]).
Qed.

(** The same for everything the loop does after counting the probe. *)
Lemma attempt_step proto msgType i r :
  let r' := attempt extensionsOK w proto msgType i r in
  CounterStep (stats r) (stats r')
  /\ exists c, stdout r' = stdout r ++ [c] /\ oneLine c.
Proof.
  unfold attempt.
  destruct (constructMarshalledMessage _ _ _) as [request|err].
  2:{ split; [apply StepError; reflexivity | eexists; repeat split]. }
  destruct (sendICMPRequest _ _) as [err|].
  { split; [apply StepError; reflexivity | eexists; repeat split]. }
  destruct (recvICMPRequest _ _) as [[[[reply ms] ttl] peer] [err|]].
  - apply printReadError_step.
  - apply printICMPResponse_step.
Qed.

Lemma attempt_transmitted proto msgType i r :
  transmitted (stats (attempt extensionsOK w proto msgType i r))
  = transmitted (stats r).
Proof.
  destruct (attempt_step proto msgType i r) as [[H _ _|H _ _|H _ _] _];
    exact H.
Qed.

Lemma rangeFrom_snoc body n : forall i r,
  rangeFrom body (S n) i r
  = body (i + Z.of_nat n) (rangeFrom body n i r).
Proof.
  induction n as [|n IH]; intros i r.
  - cbn. now rewrite Z.add_0_r.
  - change (rangeFrom body (S (S n)) i r)
      with (rangeFrom body (S n) (i + 1) (body i r)).
    rewrite IH. cbn [rangeFrom]. f_equal. lia.
Qed.

Lemma probes_S proto msgType r k :
  probes extensionsOK w proto msgType r (S k)
  = probe extensionsOK w proto msgType (Z.of_nat k)
      (probes extensionsOK w proto msgType r k).
Proof. unfold probes. now rewrite rangeFrom_snoc. Qed.

Lemma probe_Counted proto msgType i k r :
  Z.of_nat k < GoInt.max_int ->
  Counted k (stats r) ->
  Counted (S k) (stats (probe extensionsOK w proto msgType i r)).
Proof.
  intros Hk (Ht & Hr & He & Hle). unfold probe.
  destruct (attempt_step proto msgType i (update incTransmitted r))
    as [Hstep _].
  cbn [stats update] in Hstep.
  assert (Hinc : transmitted (incTransmitted (stats r)) = Z.of_nat (S k)).
  { cbn. rewrite Ht, GoIntFacts.incr_below_max; [lia|].
    unfold GoInt.min_int, GoInt.max_int in *. lia. }
  assert (Hmin : GoInt.min_int <= 0) by (unfold GoInt.min_int; lia).
  unfold Counted.
  destruct Hstep as [T R E|T R E|T R E]; rewrite T, R, E, Hinc;
    cbn [received errors incTransmitted set_transmitted];
    rewrite ?GoIntFacts.incr_below_max by lia; lia.
Qed.

Lemma probes_Counted proto msgType r k :
  Z.of_nat k <= GoInt.max_int ->
  Counted 0 (stats r) ->
  Counted k (stats (probes extensionsOK w proto msgType r k)).
Proof.
  intros Hk H0. induction k as [|k IH]; [exact H0|].
  rewrite probes_S. apply probe_Counted; [lia|]. apply IH. lia.
Qed.

Lemma probes_stdout proto msgType r k :
  List.length (stdout (probes extensionsOK w proto msgType r k))
  = (List.length (stdout r) + k)%nat.
Proof.
  induction k as [|k IH]; [cbn; lia|].
  rewrite probes_S. unfold probe.
  destruct (attempt_step proto msgType (Z.of_nat k)
              (update incTransmitted
                 (probes extensionsOK w proto msgType r k)))
    as [_ (c & -> & _)].
  rewrite length_app. cbn [stdout update List.length]. lia.
Qed.

End EngineFacts.

(* ================================================================== *)
(** * The handlers *)

Section HandlerFacts.

Variable extensionsOK : list Z -> bool.
Variable w : World.

(** A handler that returns has run the whole loop, then [finalStats], then
    [PrintStatistics]. *)
Lemma ICMPHandler_returned f info :
  snd (ICMPHandler f extensionsOK w info) = Returned ->
  let loop := packetLoop extensionsOK w f info (Z.to_nat (CNT info)) in
  let final := PrintStatistics (finalStats (stats loop)) in
  fst (ICMPHandler f extensionsOK w info)
  = mkRun (fst final) (stdout loop ++ snd final).
Proof.
  destruct f; cbv zeta;
    unfold ICMPHandler, ICMP4Handler, ICMP6Handler, handler, packetLoop;
    cbn [protoOf requestOf startOf];
    (destruct (getInterface w (Iface info)); [discriminate|]);
    (destruct (ListenPacket w _ _); [discriminate|]);
    cbn [stats stdout update];
    destruct (PrintStatistics _); reflexivity.
Qed.

Lemma startOf_Counted f : Counted 0 (startOf f).
Proof. destruct f; repeat split; cbn; lia. Qed.

Lemma packetLoop_Counted f info k :
  Z.of_nat k <= GoInt.max_int ->
  Counted k (stats (packetLoop extensionsOK w f info k)).
Proof.
  intros Hk. apply probes_Counted; [exact Hk|]. apply startOf_Counted.
Qed.

(** C1. In every run of the packet loop of either handler with a count
    [CNT >= 0]: after each iteration [received + errors <= transmitted];
    each iteration counts its probe once in [transmitted], before the
    encoding and the send, and nothing after that touches [transmitted]
    again, so a probe whose encoding or send fails is counted as
    transmitted (and as an error); at the end of the loop, and when the
    handler returns, [transmitted] is [CNT]. *)
Theorem C1_statistics_invariant (f : Family) (info : ICMPInfo) :
  0 <= CNT info <= GoInt.max_int ->
  let loop := packetLoop extensionsOK w f info in
  (forall k, (k <= Z.to_nat (CNT info))%nat ->
     received (stats (loop k)) + errors (stats (loop k))
       <= transmitted (stats (loop k))
     /\ transmitted (stats (loop k)) = Z.of_nat k)
  /\ (forall k, (k < Z.to_nat (CNT info))%nat ->
        loop (S k)
        = attempt extensionsOK w (protoOf f) (requestOf f) (Z.of_nat k)
            (update incTransmitted (loop k))
        /\ transmitted (stats (loop (S k)))
           = transmitted (stats (loop k)) + 1)
  /\ (forall proto msgType i r,
        transmitted (stats (attempt extensionsOK w proto msgType i r))
        = transmitted (stats r))
  /\ (forall proto msgType i r err,
        constructMarshalledMessage (Getpid w) msgType i = Err err ->
        stats (probe extensionsOK w proto msgType i r)
        = incErrors (incTransmitted (stats r)))
  /\ (forall proto msgType i r request err,
        constructMarshalledMessage (Getpid w) msgType i = Ok request ->
        sendICMPRequest (wire w i) proto = Some err ->
        stats (probe extensionsOK w proto msgType i r)
        = incErrors (incTransmitted (stats r)))
  /\ transmitted (stats (loop (Z.to_nat (CNT info)))) = CNT info
  /\ (snd (ICMPHandler f extensionsOK w info) = Returned ->
      let s := stats (fst (ICMPHandler f extensionsOK w info)) in
      transmitted s = CNT info
      /\ received s + errors s <= transmitted s).
Proof.
  intros Hcnt loop.
  assert (Hinv : forall k, (k <= Z.to_nat (CNT info))%nat ->
                           Counted k (stats (loop k))).
  { intros k Hk. apply packetLoop_Counted. lia. }
  assert (Hend : Counted (Z.to_nat (CNT info))
                   (stats (loop (Z.to_nat (CNT info)))))
    by (apply Hinv; lia).
  refine (conj _ (conj _ (conj _ (conj _ (conj _ (conj _ _)))))).
  - intros k Hk. destruct (Hinv k Hk) as (Ht & _ & _ & Hle). now split.
  - intros k Hk. split.
    + unfold loop, packetLoop. rewrite probes_S. reflexivity.
    + destruct (Hinv (S k) ltac:(lia)) as (-> & _).
      destruct (Hinv k ltac:(lia)) as (-> & _). lia.
  - intros. apply attempt_transmitted.
  - intros proto msgType i r err Henc. unfold probe, attempt.
    now rewrite Henc.
  - intros proto msgType i r request err Henc Hsend. unfold probe, attempt.
    now rewrite Henc, Hsend.
  - destruct Hend as (-> & _). lia.
  - intros Hret. rewrite (ICMPHandler_returned f info Hret). cbn [stats].
    pose proof (PrintStatistics_counters
                  (finalStats (stats (loop (Z.to_nat (CNT info)))))) as E.
    unfold counters in E. injection E as E1 E2 E3.
    fold loop. rewrite E1, E2, E3. cbn.
    destruct Hend as (Ht & _ & _ & Hle). split; [lia|exact Hle].
Qed.

(** C9. Whatever becomes of a probe (the encoding fails, the send fails,
    the read times out or fails, the reply does not parse, or it parses to
    any type), its iteration makes exactly one call of [Printf], and the
    format of the call is one line; so after [k] probes the loop has
    printed exactly [k] lines after the banner. *)
Theorem C9_one_line_per_probe (f : Family) (info : ICMPInfo) :
  (forall proto msgType i r,
     exists c,
       stdout (probe extensionsOK w proto msgType i r) = stdout r ++ [c]
       /\ oneLine c)
  /\ (forall k,
        exists c,
          stdout (packetLoop extensionsOK w f info (S k))
          = stdout (packetLoop extensionsOK w f info k) ++ [c]
          /\ oneLine c)
  /\ (forall k,
        List.length (stdout (packetLoop extensionsOK w f info k))
        = S k).
Proof.
  assert (Hprobe : forall proto msgType i r,
             exists c,
               stdout (probe extensionsOK w proto msgType i r)
               = stdout r ++ [c] /\ oneLine c).
  { intros proto msgType i r. unfold probe.
    destruct (attempt_step extensionsOK w proto msgType i
                (update incTransmitted r)) as [_ Hc].
    exact Hc. }
  split; [exact Hprobe|]. split.
  - intros k. unfold packetLoop. rewrite probes_S. apply Hprobe.
  - intros k. unfold packetLoop. rewrite probes_stdout. reflexivity.
Qed.

End HandlerFacts.

(* ================================================================== *)
(** * The classification of a reply *)

Lemma ICMPType_eqb_eq (a b : ICMPType) : ICMPType_eqb a b = true <-> a = b.
Proof.
  destruct a, b; cbn; try (split; [discriminate|congruence]).
  - rewrite Z.eqb_eq. split; congruence.
  - rewrite Z.eqb_eq. split; congruence.
  - split; reflexivity.
Qed.

Lemma isCase_In (t : ICMPType) (values : list ICMPType) :
  isCase t values = true <-> In t values.
Proof.
  unfold isCase. rewrite existsb_exists. split.
  - intros (x & Hin & Heq). apply ICMPType_eqb_eq in Heq. now subst.
  - intros Hin. exists t. split; [exact Hin|]. now apply ICMPType_eqb_eq.
Qed.


Section ClassifierFacts.

Variable extensionsOK : list Z -> bool.

(** A parsed message of an echo reply type carries an echo body: the table
    of parsers sends both types to [parseEcho]. *)
Lemma ParseMessage_echo_reply proto data reply :
  icmp.ParseMessage extensionsOK proto data = Ok reply ->
  In (icmp.MsgType reply) echoReplyTypes ->
  exists id echoSeq payload,
    icmp.Body reply = Some (icmp.Echo id echoSeq payload).
Proof.
  unfold icmp.ParseMessage.
  destruct data as [|b0 [|b1 [|b2 [|b3 rest]]]]; try discriminate.
  assert (Hecho : forall typ,
             In typ echoReplyTypes ->
             match icmp.parseBody extensionsOK typ rest with
             | Ok body =>
                 Ok (icmp.mkMessage typ b1 (icmp.getUint16 b2 b3) (Some body))
             | Err e => Err e
             end = Ok reply ->
             exists id echoSeq payload,
               icmp.Body reply = Some (icmp.Echo id echoSeq payload)).
  { intros typ [<-|[<-|[]]]; cbn [icmp.parseBody ipv4.ICMPTypeEchoReply
                                   ipv6.ICMPTypeEchoReply];
      unfold icmp.parseEcho;
      destruct rest as [|i1 [|i0 [|s1 [|s0 payload]]]]; try discriminate;
      intros [= <-]; cbn; eauto. }
  destruct (proto =? icmp.ProtocolICMP).
  { intros H Hin.
    destruct (icmp.parseBody extensionsOK (ICMPv4 b0) rest) eqn:E;
      [|discriminate].
    injection H as <-. cbn in Hin.
    apply (Hecho (ICMPv4 b0) Hin). now rewrite E. }
  destruct (proto =? icmp.ProtocolIPv6ICMP); [|discriminate].
  intros H Hin.
  destruct (icmp.parseBody extensionsOK (ICMPv6 b0) rest) eqn:E;
    [|discriminate].
  injection H as <-. cbn in Hin.
  apply (Hecho (ICMPv6 b0) Hin). now rewrite E.
Qed.


End ClassifierFacts.

(* ================================================================== *)
(** * The round trip of an echo request *)

Lemma getUint16_putUint16 (v : Z) :
  match icmp.putUint16 v with
  | [hi; lo] => icmp.getUint16 hi lo = v mod 2 ^ 16
  | _ => False
  end.
Proof.
  unfold icmp.putUint16, icmp.getUint16, GoInt.to_uint16.
  set (x := v mod 2 ^ 16).
  assert (Hx : 0 <= x < 2 ^ 16) by (apply Z.mod_pos_bound; lia).
  change 255 with (Z.ones 8).
  rewrite Z.land_ones, Z.shiftr_div_pow2, Z.shiftl_mul_pow2 by lia.
  assert (Hland : Z.land (x / 2 ^ 8 * 2 ^ 8) (x mod 2 ^ 8) = 0).
  { apply Z.bits_inj'. intros n Hn. rewrite Z.land_spec, Z.bits_0.
    destruct (Z.ltb_spec n 8) as [Hlt|Hge].
    - rewrite Z.mul_pow2_bits_low by lia. reflexivity.
    - rewrite Z.mod_pow2_bits_high by lia. apply andb_false_r. }
  rewrite <- Z.lxor_lor, <- Z.add_nocarry_lxor by exact Hland.
  pose proof (Z.div_mod x (2 ^ 8)). lia.
Qed.

Lemma land_16_bits (pid : Z) : Z.land pid 65535 mod 2 ^ 16 = Z.land pid 65535.
Proof.
  change 65535 with (Z.ones 16). rewrite Z.land_ones by lia.
  apply Z.mod_mod. lia.
Qed.

Section RoundTripFacts.

Variable extensionsOK : list Z -> bool.

(** What [constructMarshalledMessage] returns, the checksum bytes left as
    they are computed: the header, the identifier, the sequence number, the
    payload. *)
Lemma constructMarshalledMessage_bytes pid f seq :
  exists b0 c2 c3,
    constructMarshalledMessage pid (requestOf f) seq
    = Ok ([b0; 0; c2; c3]
            ++ icmp.putUint16 (Z.land pid 65535)
            ++ icmp.putUint16 seq ++ echoData)
    /\ b0 = match f with IPv4 => 8 | IPv6 => 128 end.
Proof.
  unfold constructMarshalledMessage, icmp.Marshal.
  destruct f; cbn [requestOf icmp.MsgType ipv4.ICMPTypeEcho
                     ipv6.ICMPTypeEchoRequest icmp.Body icmp.Code
                     icmp.marshalBody app];
    do 3 eexists; split; reflexivity.
Qed.

(** The identifier is masked to 16 bits. *)
Lemma land_16_bits_range (pid : Z) : 0 <= Z.land pid 65535 < 2 ^ 16.
Proof.
  rewrite <- land_16_bits. apply Z.mod_pos_bound. lia.
Qed.

(** The parse of the bytes of an echo request: the header gives the type,
    and the two 16-bit fields of the body are read back as written. *)
Lemma ParseMessage_echo_request (f : Family) (c2 c3 id seq : Z)
    (payload : list Z) :
  0 <= id < 2 ^ 16 -> 0 <= seq < 2 ^ 16 ->
  icmp.ParseMessage extensionsOK (protoOf f)
    ([match f with IPv4 => 8 | IPv6 => 128 end; 0; c2; c3]
       ++ icmp.putUint16 id ++ icmp.putUint16 seq ++ payload)
  = Ok (icmp.mkMessage (requestOf f) 0 (icmp.getUint16 c2 c3)
          (Some (icmp.Echo id seq payload))).
Proof.
  intros Hid Hseq.
  pose proof (getUint16_putUint16 id) as Gid.
  pose proof (getUint16_putUint16 seq) as Gseq.
  destruct (icmp.putUint16 id) as [|i1 [|i0 [|]]]; try contradiction.
  destruct (icmp.putUint16 seq) as [|s1 [|s0 [|]]]; try contradiction.
  rewrite Z.mod_small in Gid, Gseq by assumption.
  destruct f;
    cbn [app icmp.ParseMessage protoOf protocolICMP protocolICMPv6
           icmp.ProtocolICMP icmp.ProtocolIPv6ICMP Z.eqb Pos.eqb
           icmp.parseBody icmp.parseEcho requestOf ipv4.ICMPTypeEcho
           ipv6.ICMPTypeEchoRequest];
    now rewrite Gid, Gseq.
Qed.

(** C8, as amended. For every process identifier and every sequence number
    that fits the 16 bits of the field, the request a handler encodes parses
    back, under the protocol of its family, to an echo body with the same
    sequence number and the identifier [pid & 0xffff]. *)
Theorem C8_round_trip_16_bits (pid : Z) (f : Family) (seq : Z) :
  0 <= seq < 2 ^ 16 ->
  RoundTrip extensionsOK pid f seq.
Proof.
  intros Hseq. unfold RoundTrip.
  destruct (constructMarshalledMessage_bytes pid f seq)
    as (b0 & c2 & c3 & Hreq & ->).
  exists ([match f with IPv4 => 8 | IPv6 => 128 end; 0; c2; c3]
            ++ icmp.putUint16 (Z.land pid 65535)
            ++ icmp.putUint16 seq ++ echoData).
  exists (icmp.mkMessage (requestOf f) 0 (icmp.getUint16 c2 c3)
            (Some (icmp.Echo (Z.land pid 65535) seq echoData))).
  exists echoData.
  split; [exact Hreq|]. split; [|split; reflexivity].
  apply ParseMessage_echo_request; [apply land_16_bits_range|exact Hseq].
Qed.

(** The sequence numbers of a run started from the command line, whose
    count is an [int8], all fit the field. *)
Lemma command_line_sequence_numbers (cnt : Z) (k : nat) :
  int8_range cnt -> (k < Z.to_nat cnt)%nat -> 0 <= Z.of_nat k < 2 ^ 16.
Proof. unfold int8_range. lia. Qed.

End RoundTripFacts.

(** The request with the sequence number [65536]: its sequence field holds
    [0], so the round trip does not give [65536] back. *)
Lemma C8_counterexample_seq_65536 :
  ~ RoundTrip (fun _ => true) 4242 IPv4 65536.
Proof.
  intros (request & reply & payload & Hreq & Hparse & _ & Hbody).
  vm_compute in Hreq. injection Hreq as <-.
  vm_compute in Hparse. injection Hparse as <-.
  cbn in Hbody. discriminate Hbody.
Qed.

Lemma C8_round_trip_witness :
  0 <= 3 < 2 ^ 16 /\ RoundTrip (fun _ => true) 4242 IPv6 3.
Proof.
  split; [lia|]. apply (C8_round_trip_16_bits (fun _ => true) 4242 IPv6 3).
  lia.
Defined.

(* ================================================================== *)
(** * Five probes, one of them lost *)

Section ScenarioFacts.

Variable extensionsOK : list Z -> bool.
Variable w : World.

Lemma constructMarshalledMessage_ok pid f seq :
  exists request,
    constructMarshalledMessage pid (requestOf f) seq = Ok request.
Proof.
  destruct (constructMarshalledMessage_bytes pid f seq)
    as (b0 & c2 & c3 & H & _).
  eauto.
Qed.

Lemma protoOf_handled f :
  (protoOf f =? protocolICMP) || (protoOf f =? protocolICMPv6) = true.
Proof. destruct f; reflexivity. Qed.

(** A probe that is answered counts in [transmitted] and [received], and
    its latency goes to [iterativeStats]. *)
Lemma probe_reply f i r us :
  Replies extensionsOK f (wire w i) us ->
  stats (probe extensionsOK w (protoOf f) (requestOf f) i r)
  = iterativeStats (GoInt.to_float64 us / 1000)%float
      (incReceived (incTransmitted (stats r))).
Proof.
  intros (Hw & Hr & Hus & reply & id & echoSeq & payload & Hp & Ht & Hb).
  unfold probe, attempt.
  destruct (constructMarshalledMessage_ok (Getpid w) f i) as [req ->].
  unfold sendICMPRequest, recvICMPRequest.
  rewrite protoOf_handled, Hw, Hr, Hus.
  unfold printICMPResponse. rewrite Hp. cbv zeta. rewrite Ht, Hb.
  destruct f; reflexivity.
Qed.

(** A probe that times out counts in [transmitted] and [errors]. *)
Lemma probe_timeout f i r :
  TimesOut (wire w i) ->
  stats (probe extensionsOK w (protoOf f) (requestOf f) i r)
  = incErrors (incTransmitted (stats r)).
Proof.
  intros (Hw & err & Hr & Ht).
  unfold probe, attempt.
  destruct (constructMarshalledMessage_ok (Getpid w) f i) as [req ->].
  unfold sendICMPRequest, recvICMPRequest.
  rewrite protoOf_handled, Hw, Hr.
  unfold printReadError. rewrite Ht. reflexivity.
Qed.

(** C3. Five probes, the one with the sequence number 2 timing out and the
    others answered after 10, 20, 30 and 40 ms: the statistics the handler
    prints are 5 transmitted, 4 received, 1 error, min 10, max 40, mean 25
    and a loss of 20, printed as [20.0%]. *)
Theorem C3_five_probes_one_timeout (f : Family) (info : ICMPInfo)
    (name : ICMPType -> string) :
  Replies extensionsOK f (wire w 0) 10000 ->
  Replies extensionsOK f (wire w 1) 20000 ->
  TimesOut (wire w 2) ->
  Replies extensionsOK f (wire w 3) 30000 ->
  Replies extensionsOK f (wire w 4) 40000 ->
  let loop := packetLoop extensionsOK w f info 5 in
  let s := fst (PrintStatistics (finalStats (stats loop))) in
  transmitted s = 5 /\ received s = 4 /\ errors s = 1
  /\ min s = 10%float /\ max s = 40%float /\ mean s = 25%float
  /\ dropPercentage s = 20%float
  /\ In (countsCall s) (snd (PrintStatistics (finalStats (stats loop))))
  /\ Sprintf name (format (countsCall s)) (args (countsCall s))
     = Some (countsLine s "20.0").
Proof.
  intros H0 H1 H2 H3 H4 loop s.
  pose (s1 := iterativeStats 10 (incReceived (incTransmitted (startOf f)))).
  pose (s2 := iterativeStats 20 (incReceived (incTransmitted s1))).
  pose (s3 := incErrors (incTransmitted s2)).
  pose (s4 := iterativeStats 30 (incReceived (incTransmitted s3))).
  pose (s5 := iterativeStats 40 (incReceived (incTransmitted s4))).
  assert (Hs : stats loop = s5).
  { unfold loop, packetLoop. rewrite !probes_S.
    rewrite (probe_reply f _ _ _ H4), (probe_reply f _ _ _ H3),
      (probe_timeout f _ _ H2), (probe_reply f _ _ _ H1),
      (probe_reply f _ _ _ H0).
    reflexivity. }
  subst s. rewrite Hs. destruct f; vm_compute; intuition.
Qed.

End ScenarioFacts.

Lemma lossyWire_replies f i us :
  In (i, us) [(0, 10000); (1, 20000); (3, 30000); (4, 40000)] ->
  Replies (fun _ => true) f (wire (lossyWorld f) i) us.
Proof.
  intros Hin. unfold Replies.
  destruct f;
    repeat (destruct Hin as [Heq|Hin];
            [injection Heq as <- <-;
             repeat split; do 4 eexists; vm_compute; repeat split|]);
    destruct Hin.
Qed.

Lemma C3_witness :
  let r := fst (ICMP4Handler (fun _ => true) (lossyWorld IPv4)
                  (mkICMPInfo "192.0.2.1" "" 64 5)) in
  mean (fst (PrintStatistics
               (finalStats
                  (stats (packetLoop (fun _ => true) (lossyWorld IPv4) IPv4
                            (mkICMPInfo "192.0.2.1" "" 64 5) 5)))))
  = 25%float
  /\ map (fun c => Sprintf (fun _ => EmptyString) (format c) (args c))
         (stdout r)
     = [Some ("PINGERING 192.0.2.1: 64 data bytes" ++ nl)%string;
        Some ("64 bytes from 192.0.2.1: icmp_seq=0 ttl=57 time=10.000 ms"
                ++ nl)%string;
        Some ("64 bytes from 192.0.2.1: icmp_seq=1 ttl=57 time=20.000 ms"
                ++ nl)%string;
        Some ("Request timeout for icmp_seq 2" ++ nl)%string;
        Some ("64 bytes from 192.0.2.1: icmp_seq=3 ttl=57 time=30.000 ms"
                ++ nl)%string;
        Some ("64 bytes from 192.0.2.1: icmp_seq=4 ttl=57 time=40.000 ms"
                ++ nl)%string;
        Some (nl ++ "--- target ping statistics ---" ++ nl)%string;
        Some ("5 packets transmitted, 4 received, 1 errors, 20.0% packet loss"
                ++ nl)%string;
        Some ("round-trip min/avg/max/stddev = 10.000/25.000/40.000/11.180 ms"
                ++ nl)%string].
Proof.
  pose proof (C3_five_probes_one_timeout (fun _ => true) (lossyWorld IPv4)
                IPv4 (mkICMPInfo "192.0.2.1" "" 64 5) (fun _ => EmptyString)
                (lossyWire_replies IPv4 0 10000 ltac:(cbn; tauto))
                (lossyWire_replies IPv4 1 20000 ltac:(cbn; tauto))
                (conj eq_refl (ex_intro _ _ (conj eq_refl eq_refl)))
                (lossyWire_replies IPv4 3 30000 ltac:(cbn; tauto))
                (lossyWire_replies IPv4 4 40000 ltac:(cbn; tauto)))
    as (_ & _ & _ & _ & _ & Hmean & _).
  split; [exact Hmean|]. vm_compute. reflexivity.
Defined.

(* ================================================================== *)
(** * The loss percentage *)

Lemma round_half_even_nearest (num den : Z) :
  0 < den -> 0 <= num ->
  2 * Z.abs (round_half_even num den * den - num) <= den.
Proof.
  intros Hden Hnum. unfold round_half_even.
  pose proof (Z.div_mod num den ltac:(lia)) as Hdm.
  pose proof (Z.mod_pos_bound num den Hden) as Hr.
  set (q := num / den) in *. set (r := num mod den) in *.
  destruct (Z.compare_spec (2 * r) den) as [Heq|Hlt|Hgt];
    [destruct (Z.even q)| |]; lia.
Qed.

(** [%.1f] prints the digits of an integer nearest to ten times the exact
    value [m * 2^e] of the float. *)
Lemma fixed_float_nearest (x : float) (sg : bool) (m : positive) (e : Z) :
  Prim2SF x = S754_finite sg m e ->
  exists n,
    fixed_float 1 x = ((if sg then "-" else "") ++ fixed 1 n)%string
    /\ (0 <= e -> n = Z.pos m * 2 ^ e * 10)
    /\ (e < 0 -> 2 * Z.abs (n * 2 ^ (- e) - Z.pos m * 10) <= 2 ^ (- e)).
Proof.
  intros Hx. exists (scaled 1 m e). unfold fixed_float. rewrite Hx.
  split; [reflexivity|]. unfold scaled.
  change (10 ^ Z.of_nat 1) with 10.
  destruct (Z.leb_spec 0 e) as [Hle|Hlt]; split; intros He; try lia.
  apply round_half_even_nearest; [|lia].
  apply Z.pow_pos_nonneg; lia.
Qed.








(* ================================================================== *)
(** * The end of a run without a reply *)

(** [PrintStatistics] itself finalizes and prints the latencies only when
    a reply was received. *)
Lemma PrintStatistics_latency_line (s : PingStats) :
  (received s <= 0 ->
   PrintStatistics s = (s, [headerCall; countsCall s]))
  /\ (0 < received s ->
      PrintStatistics s
      = (finalStats s,
         [headerCall; countsCall s; latencyCall (finalStats s)])).
Proof.
  unfold PrintStatistics.
  destruct (Z.ltb_spec 0 (received s)); split; intros; try lia; reflexivity.
Qed.

(** C2, on the code. One probe that times out: the handler returns after
    calling [finalStats] on statistics whose [received] is 0, which divides
    0 by 0 and leaves NaN in [mean] and [stddev]; no latency line is
    printed. *)
Theorem C2_finalStats_called_without_reply :
  let info := mkICMPInfo "192.0.2.1" "" 64 1 in
  let loop := packetLoop (fun _ => true) silentWorld IPv4 info 1 in
  let result := ICMP4Handler (fun _ => true) silentWorld info in
  snd result = Returned
  /\ received (stats loop) = 0
  /\ stats (fst result) = finalStats (stats loop)
  /\ is_nan (mean (stats (fst result))) = true
  /\ is_nan (stddev (stats (fst result))) = true
  /\ map (fun c => Sprintf (fun _ => EmptyString) (format c) (args c))
         (stdout (fst result))
     = [Some ("PINGERING 192.0.2.1: 64 data bytes" ++ nl)%string;
        Some ("Request timeout for icmp_seq 0" ++ nl)%string;
        Some (nl ++ "--- target ping statistics ---" ++ nl)%string;
        Some ("1 packets transmitted, 0 received, 1 errors, 100.0% packet loss"
                ++ nl)%string].
Proof. vm_compute. repeat split. Qed.

(* ================================================================== *)
(** * Address resolution *)

(** The check of the two flags stands in [HostToAddr]. *)
Lemma HostToAddr_both_flags (w : World) (host : string) :
  HostToAddr w host (mkAddrOptions true true)
  = (noAddr, Some "only one -4 or -6 option may be specified"%string).
Proof. reflexivity. Qed.

Lemma AddrResolution_hostname_both_flags (w : World) (host : string) :
  validateHostname host = true ->
  AddrResolution w host (mkAddrOptions true true)
  = (noAddr, Some "only one -4 or -6 option may be specified"%string).
Proof. intros H. unfold AddrResolution. now rewrite H. Qed.

(** C5, on the code. A literal address does not go through [HostToAddr]:
    with both flags set, [AddrResolution] accepts [8.8.8.8], and the root
    command goes on to the IPv6 handler, which opens the socket. *)
Theorem C5_literal_address_with_both_flags (extensionsOK : list Z -> bool)
    (w : World) :
  validateHostname "8.8.8.8" = false
  /\ AddrResolution w "8.8.8.8" (mkAddrOptions true true)
     = (mkUnMarshalledAddr "8.8.8.8" true, None)
  /\ rootCmd extensionsOK w true true "" 64 5 "8.8.8.8"
     = RanICMP6 (mkICMPInfo "8.8.8.8" "" 64 5)
         (ICMP6Handler extensionsOK w (mkICMPInfo "8.8.8.8" "" 64 5)).
Proof.
  assert (H : AddrResolution w "8.8.8.8" (mkAddrOptions true true)
              = (mkUnMarshalledAddr "8.8.8.8" true, None))
    by (vm_compute; reflexivity).
  split; [vm_compute; reflexivity|]. split; [exact H|].
  unfold rootCmd. rewrite H. reflexivity.
Qed.

(** Without a flag [HostToAddr] takes the first address of the answer,
    whatever its family, and marks it with the verdict of [valIPv6]. *)
Lemma HostToAddr_no_flag (w : World) (host ip : string)
    (rest : list string) :
  LookupHost w host = Ok (ip :: rest) ->
  HostToAddr w host (mkAddrOptions false false)
  = (mkUnMarshalledAddr ip (fst (valIPv6 ip)), None).
Proof.
  intros H. unfold HostToAddr. cbn [V4 V6 andb negb]. rewrite H.
  now destruct (valIPv6 ip).
Qed.

(** C6, on the code. A name that resolves to an IPv6 address followed by
    an IPv4 address: without a flag [HostToAddr] returns the IPv6 address,
    and the root command runs the IPv6 handler. *)
Theorem C6_first_address_is_returned (extensionsOK : list Z -> bool) :
  LookupHost dualStackWorld "example.com"
  = Ok ["2001:db8::1"; "93.184.216.34"]%string
  /\ valIPv4 "2001:db8::1" = (false, None)
  /\ valIPv4 "93.184.216.34" = (true, None)
  /\ HostToAddr dualStackWorld "example.com" (mkAddrOptions false false)
     = (mkUnMarshalledAddr "2001:db8::1" true, None)
  /\ rootCmd extensionsOK dualStackWorld false false "" 64 5 "example.com"
     = RanICMP6 (mkICMPInfo "2001:db8::1" "" 64 5)
         (ICMP6Handler extensionsOK dualStackWorld
            (mkICMPInfo "2001:db8::1" "" 64 5)).
Proof.
  assert (H : AddrResolution dualStackWorld "example.com"
                (mkAddrOptions false false)
              = (mkUnMarshalledAddr "2001:db8::1" true, None))
    by (vm_compute; reflexivity).
  refine (conj _ (conj _ (conj _ (conj _ _))));
    [vm_compute; reflexivity ..|].
  unfold rootCmd. rewrite H. reflexivity.
Qed.

(* ================================================================== *)
(** * IPv4 literals and [valIPv6] *)

Lemma parseIPv4Loop_shape (s : list Z) :
  forall first prev fields val digLen res,
    net.parseIPv4Loop s first prev fields val digLen = Some res ->
    (List.length fields <= 3)%nat ->
    Forall dotted s
    /\ List.length res = 4%nat
    /\ ((List.length fields < 3)%nat -> In 46 s).
Proof.
  induction s as [|c r IH]; intros first prev fields val digLen res H Hlen.
  - cbn [net.parseIPv4Loop] in H.
    destruct (Nat.ltb_spec (List.length fields) 3);
      [discriminate|]. injection H as <-.
    rewrite length_app. cbn. repeat split; [constructor|lia|lia].
  - cbn [net.parseIPv4Loop] in H.
    destruct (net.isDigit c) eqn:Hd.
    + destruct ((digLen =? 1) && (val =? 0)); [discriminate|].
      destruct (255 <? val * 10 + c - 48); [discriminate|].
      destruct (IH _ _ _ _ _ _ H Hlen) as (Hall & Hres & Hdot).
      repeat split; [constructor; [now left|exact Hall]|exact Hres|].
      intros Hlt. right. auto.
    + destruct (Z.eqb_spec c 46) as [->|]; [|discriminate].
      destruct (first || match r with [] => true | _ :: _ => false end
                || (prev =? 46)); [discriminate|].
      destruct (Nat.eqb_spec (List.length fields) 3); [discriminate|].
      assert (Hlen' : (List.length (fields ++ [val]) <= 3)%nat)
        by (rewrite length_app; cbn; lia).
      destruct (IH _ _ _ _ _ _ H Hlen') as (Hall & Hres & _).
      repeat split; [constructor; [now right|exact Hall]|exact Hres|].
      intros _. now left.
Qed.

Lemma parseAddrScan_dotted (whole s : list Z) :
  Forall dotted s -> In 46 s ->
  net.parseAddrScan whole s
  = match net.parseIPv4 whole with
    | Some f => Some (repeat 0 10 ++ [255; 255] ++ f)
    | None => None
    end.
Proof.
  induction s as [|c r IH]; intros Hall Hin; [destruct Hin|].
  cbn [net.parseAddrScan].
  destruct (Z.eqb_spec c 46) as [->|Hc]; [reflexivity|].
  inversion Hall as [|? ? [Hd|Hd] Hr]; subst; [|contradiction].
  unfold net.isDigit in Hd. apply andb_true_iff in Hd as [H1 H2].
  apply Z.leb_le in H1, H2.
  destruct (Z.eqb_spec c 58); [lia|]. destruct (Z.eqb_spec c 37); [lia|].
  apply IH; [exact Hr|]. destruct Hin as [->|Hin]; [contradiction|exact Hin].
Qed.

(** [valIPv6] accepts whatever [ParseIP] accepts: [To16] never fails on
    the 16 bytes [ParseIP] returns for a dotted decimal address. *)
Lemma valIPv6_of_ipv4 (s : string) (fields : list Z) :
  net.parseIPv4 (bytes_of_string s) = Some fields ->
  valIPv6 s = (true, None).
Proof.
  intros H.
  destruct (parseIPv4Loop_shape _ _ _ _ _ _ _ H ltac:(cbn; lia))
    as (Hall & Hres & Hdot).
  unfold valIPv6, net.ParseIP.
  rewrite parseAddrScan_dotted, H; [|exact Hall|apply Hdot; cbn; lia].
  unfold net.To16. rewrite !length_app, repeat_length, Hres. reflexivity.
Qed.

(** C10. [valIPv6] answers true for every dotted decimal IPv4 address; so
    [AddrResolution] of the literal [8.8.8.8] with the option [-6] alone
    succeeds with that address marked as IPv6, and the root command runs the
    IPv6 handler on it. *)
Theorem C10_valIPv6_accepts_ipv4 :
  (forall s fields,
     net.parseIPv4 (bytes_of_string s) = Some fields ->
     valIPv6 s = (true, None))
  /\ net.parseIPv4 (bytes_of_string "8.8.8.8") = Some [8; 8; 8; 8]
  /\ (forall extensionsOK w iface ttl cnt,
        AddrResolution w "8.8.8.8" (mkAddrOptions false true)
        = (mkUnMarshalledAddr "8.8.8.8" true, None)
        /\ rootCmd extensionsOK w false true iface ttl cnt "8.8.8.8"
           = RanICMP6 (mkICMPInfo "8.8.8.8" iface ttl cnt)
               (ICMP6Handler extensionsOK w
                  (mkICMPInfo "8.8.8.8" iface ttl cnt))).
Proof.
  split; [exact valIPv6_of_ipv4|]. split; [vm_compute; reflexivity|].
  intros extensionsOK w iface ttl cnt.
  assert (H : AddrResolution w "8.8.8.8" (mkAddrOptions false true)
              = (mkUnMarshalledAddr "8.8.8.8" true, None))
    by (vm_compute; reflexivity).
  split; [exact H|]. unfold rootCmd. rewrite H. reflexivity.
Qed.

Lemma C10_witness : valIPv6 "192.168.1.1" = (true, None).
Proof.
  exact (proj1 C10_valIPv6_accepts_ipv4 "192.168.1.1"%string
           [192; 168; 1; 1] eq_refl).
Defined.

(* ================================================================== *)
(** * Instances *)

Lemma C1_witness :
  0 <= 5 <= GoInt.max_int
  /\ transmitted
       (stats (packetLoop (fun _ => true) (lossyWorld IPv4) IPv4
                 (mkICMPInfo "192.0.2.1" "" 64 5) 5)) = 5.
Proof.
  assert (H : 0 <= CNT (mkICMPInfo "192.0.2.1" "" 64 5) <= GoInt.max_int)
    by (vm_compute; split; discriminate).
  pose proof (C1_statistics_invariant (fun _ => true) (lossyWorld IPv4) IPv4
                (mkICMPInfo "192.0.2.1" "" 64 5) H)
    as (_ & _ & _ & _ & _ & Hend & _).
  split; [exact H|exact Hend].
Defined.


(* ================================================================== *)
(** * Further facts on the probe engine *)

Section MoreEngineFacts.

Variable extensionsOK : list Z -> bool.
Variable w : World.

Lemma ParseMessage_short proto data :
  (List.length data < 4)%nat ->
  icmp.ParseMessage extensionsOK proto data = Err icmp.errMessageTooShort.
Proof.
  destruct data as [|b0 [|b1 [|b2 [|b3 rest]]]]; cbn [List.length];
    intros H; try reflexivity. lia.
Qed.

(** X1. A datagram shorter than the four bytes of an ICMP header is not an
    ICMP message: [printICMPResponse] prints the parse error, counts it once
    in [errors] and leaves [received] and the latencies alone. *)
Theorem X1_short_datagram_is_one_error (proto : Z) (data : list Z)
    (peer : string) (seq ttl : Z) (ms : float) (r : Run) :
  (List.length data < 4)%nat ->
  let r' := printICMPResponse extensionsOK proto data peer seq ttl ms r in
  stats r' = incErrors (stats r)
  /\ errors (stats r') = GoInt.incr (errors (stats r))
  /\ received (stats r') = received (stats r)
  /\ stdout r'
     = stdout r
         ++ [Printf ("Error parsing ICMP response: %v" ++ nl)
               [AErr icmp.errMessageTooShort]].
Proof.
  intros Hlen r'. subst r'. unfold printICMPResponse.
  rewrite (ParseMessage_short proto data Hlen). repeat split.
Qed.

(** The request of either family, its bytes one by one. *)
Lemma putUint16_bytes (v : Z) :
  exists hi lo, icmp.putUint16 v = [hi; lo] /\ isByte hi /\ isByte lo.
Proof.
  unfold icmp.putUint16, GoInt.to_uint16. do 2 eexists.
  split; [reflexivity|].
  assert (H : 0 <= v mod 2 ^ 16 < 2 ^ 16) by (apply Z.mod_pos_bound; lia).
  unfold isByte. split.
  - rewrite Z.shiftr_div_pow2 by lia. split.
    + apply Z.div_pos; lia.
    + apply Z.div_lt_upper_bound; lia.
  - change 255 with (Z.ones 8). rewrite Z.land_ones by lia.
    apply Z.mod_pos_bound. lia.
Qed.

Lemma echoData_bytes : Forall isByte echoData.
Proof.
  unfold echoData, bytes_of_string. apply Forall_forall.
  intros z Hz. apply in_map_iff in Hz as (c & <- & _).
  unfold isByte. pose proof (nat_ascii_bounded c). lia.
Qed.

Lemma to_byte_isByte (z : Z) : isByte (GoInt.to_byte z).
Proof. unfold isByte, GoInt.to_byte. apply Z.mod_pos_bound. lia. Qed.

Lemma lxor_0_l_byte (z : Z) : Z.lxor 0 (GoInt.to_byte z) = GoInt.to_byte z.
Proof. apply Z.lxor_0_l. Qed.

(** X6. The echo request of either handler is the 64 bytes the banner
    announces ([pingDataSize]): 8 of header and the 56 of the data, every
    one of them a byte; a type that is neither an IPv4 nor an IPv6 type is
    the one way the encoding fails. *)
Theorem X6_request_is_64_bytes (pid seq : Z) :
  (forall f,
     exists request,
       constructMarshalledMessage pid (requestOf f) seq = Ok request
       /\ Z.of_nat (List.length request) = pingDataSize
       /\ Forall isByte request)
  /\ (forall msgType,
        (exists err, constructMarshalledMessage pid msgType seq = Err err)
        <-> msgType = OtherType).
Proof.
  split.
  - intros f.
    destruct (putUint16_bytes (Z.land pid 65535))
      as (i1 & i0 & Hi & Bi1 & Bi0).
    destruct (putUint16_bytes seq) as (s1 & s0 & Hs & Bs1 & Bs0).
    unfold constructMarshalledMessage, icmp.Marshal.
    destruct f;
      cbn [requestOf icmp.MsgType ipv4.ICMPTypeEcho ipv6.ICMPTypeEchoRequest
             icmp.Body icmp.Code icmp.marshalBody];
      rewrite Hi, Hs; cbn [app];
      (eexists; split; [reflexivity|]); (split; [reflexivity|]);
      rewrite ?lxor_0_l_byte;
      repeat (apply Forall_cons;
              [first [assumption | apply to_byte_isByte
                     | unfold isByte; lia]|]);
      apply echoData_bytes.
  - intros msgType. split.
    + intros [err H]. unfold constructMarshalledMessage, icmp.Marshal in H.
      destruct msgType; cbn [icmp.MsgType] in H; try reflexivity.
      * destruct (_ ++ _) as [|? [|? [|? [|? ?]]]]; discriminate.
      * discriminate.
    + intros ->. eexists. reflexivity.
Qed.

End MoreEngineFacts.

Lemma X1_witness :
  errors
    (stats (printICMPResponse (fun _ => true) 1 [8; 0] "192.0.2.1" 7 64
              0%float (mkRun zeroStats []))) = 1.
Proof.
  pose proof (X1_short_datagram_is_one_error (fun _ => true) 1 [8; 0]
                "192.0.2.1" 7 64 0%float (mkRun zeroStats [])
                ltac:(cbn; lia)) as (H & _).
  rewrite H. reflexivity.
Defined.

(* ================================================================== *)
(** * The outcome of a probe *)

Section OutcomeFacts.

Variable extensionsOK : list Z -> bool.
Variable w : World.
Variable name : ICMPType -> string.

Lemma ParseMessage_ICMP_type data reply :
  icmp.ParseMessage extensionsOK protocolICMP data = Ok reply ->
  exists t, icmp.MsgType reply = ICMPv4 t.
Proof.
  unfold icmp.ParseMessage.
  destruct data as [|b0 [|b1 [|b2 [|b3 rest]]]]; try discriminate.
  cbn [protocolICMP icmp.ProtocolICMP Z.eqb Pos.eqb].
  destruct (icmp.parseBody extensionsOK (ICMPv4 b0) rest); [|discriminate].
  intros [= <-]. now exists b0.
Qed.

Lemma printICMPResponse_outcome proto data peer seq ttl ms r :
  let r' := printICMPResponse extensionsOK proto data peer seq ttl ms r in
  exists c,
    stdout r' = stdout r ++ [c]
    /\ Outcome (stats r) c (stats r')
    /\ Renders name c
    /\ (proto = protocolICMP -> isInformational c = false).
Proof.
  unfold printICMPResponse.
  destruct (icmp.ParseMessage extensionsOK proto data) as [reply|err] eqn:E.
  2:{ outcome_error. }
  cbv zeta.
  destruct (isCase _ _).
  { destruct (icmp.Body reply) as [[]|]; try outcome_error.
    eexists; split; [reflexivity|].
    split; [eapply OutReply; reflexivity|].
    split; [eexists; reflexivity|reflexivity]. }
  destruct (isCase _ _); [outcome_error|].
  destruct (isCase _ _).
  { destruct (proto =? protocolICMP); outcome_error. }
  destruct (isCase _ _) eqn:Hd; [|outcome_error].
  eexists; split; [reflexivity|].
  split; [apply OutInformational; reflexivity|].
  split; [eexists; reflexivity|].
  intros ->. destruct (ParseMessage_ICMP_type data reply E) as [t Ht].
  rewrite Ht in Hd. discriminate Hd.
Qed.

Lemma attempt_outcome proto msgType i r :
  let r' := attempt extensionsOK w proto msgType i r in
  exists c,
    stdout r' = stdout r ++ [c]
    /\ Outcome (stats r) c (stats r')
    /\ Renders name c
    /\ (proto = protocolICMP -> isInformational c = false).
Proof.
  unfold attempt.
  destruct (constructMarshalledMessage _ _ _) as [request|err];
    [|outcome_error].
  destruct (sendICMPRequest _ _) as [err|]; [outcome_error|].
  destruct (recvICMPRequest _ _) as [[[[reply ms] ttl] peer] [err|]].
  - unfold printReadError. destruct (isTimeout err); outcome_error.
  - apply printICMPResponse_outcome.
Qed.

End OutcomeFacts.

(* ================================================================== *)
(** * The accounts of a run *)

Lemma informational_snoc (out : list Call) (c : Call) :
  informational (out ++ [c])
  = informational out + (if isInformational c then 1 else 0).
Proof.
  unfold informational. rewrite filter_app, length_app. cbn [filter].
  destruct (isInformational c); cbn [List.length]; lia.
Qed.

Lemma banner_plain (info : ICMPInfo) : isInformational (banner info) = false.
Proof. unfold banner. destruct (negb _); reflexivity. Qed.

Lemma banner_renders name (info : ICMPInfo) : Renders name (banner info).
Proof. unfold banner. destruct (negb _); eexists; reflexivity. Qed.

Lemma finalStats_idempotent (s : PingStats) :
  finalStats (finalStats s) = finalStats s.
Proof. reflexivity. Qed.

Section AccountFacts.

Variable extensionsOK : list Z -> bool.
Variable w : World.

Lemma probes_render name proto msgType r k :
  Forall (Renders name) (stdout r) ->
  Forall (Renders name) (stdout (probes extensionsOK w proto msgType r k)).
Proof.
  intros H0. induction k as [|k IH]; [exact H0|].
  rewrite probes_S. unfold probe.
  destruct (attempt_outcome extensionsOK w name proto msgType (Z.of_nat k)
              (update incTransmitted
                 (probes extensionsOK w proto msgType r k)))
    as (c & -> & _ & Hc & _).
  apply Forall_app. split; [exact IH|]. now constructor.
Qed.

(** The books of the loop: every probe counted in [transmitted] is a
    reply, an error or a printed discovery message; the sums are untouched
    as long as no reply came. *)
Lemma packetLoop_accounts f info k :
  Z.of_nat k <= GoInt.max_int ->
  let r := packetLoop extensionsOK w f info k in
  transmitted (stats r)
  = received (stats r) + errors (stats r) + informational (stdout r)
  /\ (f = IPv4 -> informational (stdout r) = 0)
  /\ (received (stats r) = 0 ->
      sum1 (stats r) = 0%float /\ sum2 (stats r) = 0%float).
Proof.
  intros Hk. cbv zeta. induction k as [|k IH].
  - unfold packetLoop, probes. cbn [rangeFrom stats stdout].
    unfold informational. cbn [filter]. rewrite banner_plain.
    destruct f; cbn; repeat split; lia.
  - destruct IH as (Hacc & Hv4 & Hsum); [lia|].
    pose proof (packetLoop_Counted extensionsOK w f info k ltac:(lia))
      as (Ht & Hr & He & Hle).
    pose proof (packetLoop_Counted extensionsOK w f info (S k) ltac:(lia))
      as (Ht' & _).
    assert (Hmin : GoInt.min_int <= 0) by (unfold GoInt.min_int; lia).
    unfold packetLoop in *. rewrite probes_S in *. unfold probe in *.
    set (r := probes extensionsOK w (protoOf f) (requestOf f)
                {| stats := startOf f; stdout := [banner info] |} k) in *.
    destruct (attempt_outcome extensionsOK w (fun _ => EmptyString)
                (protoOf f) (requestOf f) (Z.of_nat k)
                (update incTransmitted r))
      as (c & Hout & Hcase & _ & Hicmp).
    rewrite Hout, informational_snoc, Ht'.
    cbn [stdout update stats] in *.
    destruct Hcase as [ms Hs Hc|Hs Hc|Hs Hc]; rewrite Hs, Hc.
    + rewrite iterativeStats_received, iterativeStats_errors.
      cbn [received errors incReceived incTransmitted set_received
             set_transmitted].
      rewrite GoIntFacts.incr_below_max by lia.
      split; [lia|]. split; [intros Hf; rewrite (Hv4 Hf); lia|].
      intros H0. lia.
    + cbn [received errors sum1 sum2 incErrors incTransmitted set_errors
             set_transmitted].
      rewrite GoIntFacts.incr_below_max by lia.
      split; [lia|]. split; [intros Hf; rewrite (Hv4 Hf); lia|exact Hsum].
    + cbn [received errors sum1 sum2 incTransmitted set_transmitted].
      split; [lia|]. split; [|exact Hsum].
      intros ->. rewrite Hicmp in Hc by reflexivity. discriminate.
Qed.

(** X2. The books of a run balance: after every iteration of the packet
    loop [transmitted = received + errors + informational], where
    [informational] counts the IPv6 discovery messages printed; under
    IPv4 no reply parses to a discovery type, so there
    [received + errors = transmitted]. *)
Theorem X2_probes_are_accounted (f : Family) (info : ICMPInfo) (k : nat) :
  Z.of_nat k <= GoInt.max_int ->
  let r := packetLoop extensionsOK w f info k in
  transmitted (stats r)
  = received (stats r) + errors (stats r) + informational (stdout r)
  /\ (f = IPv4 -> received (stats r) + errors (stats r)
                  = transmitted (stats r)).
Proof.
  intros Hk r.
  destruct (packetLoop_accounts f info k Hk) as (Hacc & Hv4 & _).
  fold r in Hacc, Hv4. split; [exact Hacc|].
  intros Hf. rewrite Hacc, (Hv4 Hf). lia.
Qed.

Lemma handler_fatal start proto network listenAddr what msgType info :
  let result :=
    handler extensionsOK w start proto network listenAddr what msgType info
  in
  (snd result = Returned ->
   (Iface info = EmptyString
    \/ exists idx, InterfaceByName w (Iface info) = Ok idx)
   /\ ListenPacket w network listenAddr = None)
  /\ (forall err,
        Iface info <> EmptyString ->
        InterfaceByName w (Iface info) = Err err ->
        result
        = (mkRun start
             [Printf ("Error finding interface %s: %v" ++ nl)
                [AStr (Iface info); AErr err]],
           Exited 1))
  /\ (forall err,
        Iface info = EmptyString
        \/ (exists idx, InterfaceByName w (Iface info) = Ok idx) ->
        ListenPacket w network listenAddr = Some err ->
        result
        = (mkRun start
             [banner info;
              Printf ("Error creating " ++ what ++ " connection: %v" ++ nl)
                [AErr err]],
           Exited 1)).
Proof.
  cbv zeta. unfold handler, getInterface.
  destruct (String.eqb_spec (Iface info) "") as [Hi|Hi].
  - refine (conj _ (conj _ _)).
    + destruct (ListenPacket w network listenAddr); [discriminate|].
      intros _. split; [now left|reflexivity].
    + intros err Hne. now elim Hne.
    + intros err _ ->. reflexivity.
  - destruct (InterfaceByName w (Iface info)) as [idx|e] eqn:Hif.
    + refine (conj _ (conj _ _)).
      * destruct (ListenPacket w network listenAddr); [discriminate|].
        intros _. split; [right; now exists idx|reflexivity].
      * intros err _ H. discriminate H.
      * intros err _ ->. reflexivity.
    + refine (conj _ (conj _ _)).
      * discriminate.
      * intros err _ [= <-]. reflexivity.
      * intros err [H|[idx H]]; [now elim Hi|discriminate H].
Qed.

(** X4. The two fatal errors.  A handler that returns has found its
    interface (if one is named) and opened its socket.  When the named
    interface is not found, which is looked up before the goroutine that
    serves a signal is started, the process exits with status 1 having
    printed that error alone.  When the socket does not open, and no signal
    was served in between, it exits with status 1 after the banner and
    that error.  Either way no probe has been counted and no statistics are
    printed. *)
Theorem X4_fatal_errors_exit_before_probing (f : Family) (info : ICMPInfo) :
  let result := ICMPHandler f extensionsOK w info in
  (snd result = Returned ->
   (Iface info = EmptyString
    \/ exists idx, InterfaceByName w (Iface info) = Ok idx)
   /\ ListenPacket w (networkOf f) (listenAddrOf f) = None)
  /\ (forall err,
        Iface info <> EmptyString ->
        InterfaceByName w (Iface info) = Err err ->
        result
        = (mkRun (startOf f)
             [Printf ("Error finding interface %s: %v" ++ nl)
                [AStr (Iface info); AErr err]],
           Exited 1))
  /\ (forall err,
        Iface info = EmptyString
        \/ (exists idx, InterfaceByName w (Iface info) = Ok idx) ->
        ListenPacket w (networkOf f) (listenAddrOf f) = Some err ->
        result
        = (mkRun (startOf f)
             [banner info;
              Printf ("Error creating " ++ connectionOf f
                        ++ " connection: %v" ++ nl)
                [AErr err]],
           Exited 1)).
Proof.
  destruct f; apply handler_fatal.
Qed.

(** X5. Every call of [Printf] a handler makes has the arguments its verbs
    ask for, on every path: the fatal errors, every outcome of every
    probe, and the statistics. *)
Theorem X5_every_call_renders (name : ICMPType -> string) (f : Family)
    (info : ICMPInfo) :
  Forall (Renders name) (stdout (fst (ICMPHandler f extensionsOK w info))).
Proof.
  assert (Hloop : forall k,
             Forall (Renders name)
               (stdout (probes extensionsOK w (protoOf f) (requestOf f)
                          (mkRun (startOf f) [banner info]) k))).
  { intros k. apply probes_render. cbn [stdout].
    constructor; [apply banner_renders|constructor]. }
  specialize (Hloop (Z.to_nat (CNT info))).
  destruct f;
    unfold ICMPHandler, ICMP4Handler, ICMP6Handler, handler, getInterface;
    cbn [protoOf requestOf startOf] in Hloop;
    (destruct (String.eqb (Iface info) "");
     [|destruct (InterfaceByName w (Iface info)) as [idx|err]]);
    (try destruct (ListenPacket w _ _) as [err'|]);
    cbn [fst stdout say update stats];
    try (unfold PrintStatistics; destruct (0 <? _));
    cbn [fst stdout];
    repeat first
      [ apply Forall_app; split
      | exact Hloop
      | apply Forall_cons
      | apply Forall_nil
      | apply banner_renders
      | eexists; reflexivity ].
Qed.

(** X9. A run that ends without a single reply: the handler still calls
    [finalStats], which divides 0 by 0, so [mean] and [stddev] are NaN when
    it returns; [PrintStatistics] prints the header and the counts and no
    latency line. *)
Theorem X9_run_without_reply (f : Family) (info : ICMPInfo) :
  0 <= CNT info <= GoInt.max_int ->
  let result := ICMPHandler f extensionsOK w info in
  let loop := packetLoop extensionsOK w f info (Z.to_nat (CNT info)) in
  snd result = Returned ->
  received (stats loop) = 0 ->
  is_nan (mean (stats (fst result))) = true
  /\ is_nan (stddev (stats (fst result))) = true
  /\ stdout (fst result)
     = stdout loop ++ [headerCall; countsCall (stats loop)].
Proof.
  intros Hcnt result loop Hret Hrecv.
  destruct (packetLoop_accounts f info (Z.to_nat (CNT info)) ltac:(lia))
    as (_ & _ & Hsum).
  fold loop in Hsum. destruct (Hsum Hrecv) as [Hs1 Hs2].
  subst result. rewrite (ICMPHandler_returned extensionsOK w f info Hret).
  fold loop. unfold PrintStatistics.
  replace (0 <? received (finalStats (stats loop))) with false
    by (cbn; now rewrite Hrecv).
  cbn [fst snd stats stdout]. unfold finalStats.
  cbn [mean stddev set_mean set_stddev sum1 sum2 received].
  rewrite Hs1, Hs2, Hrecv. repeat split.
Qed.

(** X11. [finalStats] only reads the sums and [received], so the call the
    handlers make before [PrintStatistics] changes nothing that is printed:
    [PrintStatistics] prints the same after it as without it, and a handler
    that returns leaves [finalStats] of the statistics of its loop. *)
Theorem X11_finalStats_before_PrintStatistics (f : Family)
    (info : ICMPInfo) (s : PingStats) :
  finalStats (finalStats s) = finalStats s
  /\ snd (PrintStatistics (finalStats s)) = snd (PrintStatistics s)
  /\ fst (PrintStatistics (finalStats s)) = finalStats s
  /\ (snd (ICMPHandler f extensionsOK w info) = Returned ->
      let loop := packetLoop extensionsOK w f info (Z.to_nat (CNT info)) in
      fst (ICMPHandler f extensionsOK w info)
      = mkRun (finalStats (stats loop))
          (stdout loop ++ snd (PrintStatistics (stats loop)))).
Proof.
  assert (H2 : forall s,
             snd (PrintStatistics (finalStats s)) = snd (PrintStatistics s))
    by (intros s0; unfold PrintStatistics;
        change (received (finalStats s0)) with (received s0);
        destruct (0 <? received s0); reflexivity).
  assert (H3 : forall s,
             fst (PrintStatistics (finalStats s)) = finalStats s)
    by (intros s0; unfold PrintStatistics;
        destruct (0 <? received (finalStats s0)); reflexivity).
  refine (conj eq_refl (conj (H2 s) (conj (H3 s) _))).
  intros Hret loop.
  rewrite (ICMPHandler_returned extensionsOK w f info Hret).
  fold loop. now rewrite H2, H3.
Qed.

End AccountFacts.

(* ================================================================== *)
(** * Replies, whoever they answer *)

Section ReplyFacts.

Variable extensionsOK : list Z -> bool.
Variable w : World.





Lemma attempt_stats proto msgType i r :
  let r' := attempt extensionsOK w proto msgType i r in
  stats r' = iterativeStats (latency w i) (incReceived (stats r))
  \/ stats r' = incErrors (stats r)
  \/ stats r' = stats r.
Proof.
  unfold attempt.
  destruct (constructMarshalledMessage _ _ _) as [request|err];
    [|right; left; reflexivity].
  destruct (sendICMPRequest _ _) as [err|]; [right; left; reflexivity|].
  unfold recvICMPRequest. fold (latency w i).
  destruct ((proto =? protocolICMP) || (proto =? protocolICMPv6)).
  - destruct (readErr (wire w i)) as [err|].
    + unfold printReadError.
      destruct (isTimeout err); right; left; reflexivity.
    + unfold printICMPResponse.
      destruct (icmp.ParseMessage _ _ _) as [reply|err];
        [|right; left; reflexivity].
      cbv zeta.
      destruct (isCase _ _).
      { destruct (icmp.Body reply) as [[]|];
          first [left; reflexivity|right; left; reflexivity]. }
      destruct (isCase _ _); [right; left; reflexivity|].
      destruct (isCase _ _).
      { destruct (proto =? protocolICMP); right; left; reflexivity. }
      destruct (isCase _ _); [right; right; reflexivity|].
      right; left; reflexivity.
  - unfold printICMPResponse. cbn [icmp.ParseMessage].
    right; left; reflexivity.
Qed.

Lemma iterativeStats_min_first (t : float) (s : PingStats) :
  received s = 1 -> min (iterativeStats t s) = t.
Proof.
  intros H. unfold iterativeStats. rewrite H. cbn [Z.eqb Pos.eqb].
  cbn [min set_min]. destruct (t <? t)%float; cbn [min set_min];
    split_ifs; reflexivity.
Qed.

Lemma iterativeStats_min_later (t : float) (s : PingStats) :
  received s <> 1 ->
  min (iterativeStats t s) = t \/ min (iterativeStats t s) = min s.
Proof.
  intros H. unfold iterativeStats.
  destruct (Z.eqb_spec (received s) 1); [contradiction|].
  destruct (t <? min s)%float; cbn [max set_min];
    split_ifs; cbn; auto.
Qed.

Lemma iterativeStats_max (t : float) (s : PingStats) :
  max (iterativeStats t s) = t \/ max (iterativeStats t s) = max s.
Proof.
  unfold iterativeStats. split_ifs; cbn; auto.
Qed.

(** X10. The extremes the summary reports are latencies of the run: once a
    reply has been received, [min] is the latency of one of the probes
    sent so far, whatever value the handler started it with (0 under IPv4,
    -1 under IPv6), and [max] is such a latency or still the 0 it started
    with. *)
Theorem X10_min_and_max_are_latencies (f : Family) (info : ICMPInfo)
    (k : nat) :
  Z.of_nat k <= GoInt.max_int ->
  let s := stats (packetLoop extensionsOK w f info k) in
  0 < received s ->
  (exists i, 0 <= i < Z.of_nat k /\ min s = latency w i)
  /\ (max s = 0%float
      \/ exists i, 0 <= i < Z.of_nat k /\ max s = latency w i).
Proof.
  intros Hk. cbv zeta. induction k as [|k IH].
  - destruct f; cbn; lia.
  - pose proof (packetLoop_Counted extensionsOK w f info k ltac:(lia))
      as (Ht & Hr & He & Hle).
    specialize (IH ltac:(lia)).
    assert (Hmin : GoInt.min_int <= 0) by (unfold GoInt.min_int; lia).
    assert (Hmax0 : received (stats (packetLoop extensionsOK w f info k)) = 0
                    -> max (stats (packetLoop extensionsOK w f info k))
                       = 0%float
                       \/ exists i, 0 <= i < Z.of_nat k
                            /\ max (stats (packetLoop extensionsOK w f info
                                             k)) = latency w i).
    { clear IH. intros _.
      assert (G : forall j,
                 max (stats (packetLoop extensionsOK w f info j)) = 0%float
                 \/ exists i, 0 <= i < Z.of_nat j
                      /\ max (stats (packetLoop extensionsOK w f info j))
                         = latency w i).
      { induction j as [|j IHj]; [left; destruct f; reflexivity|].
        unfold packetLoop in *. rewrite probes_S. unfold probe.
        set (r := probes _ _ _ _ _ j) in *.
        destruct (attempt_stats (protoOf f) (requestOf f) (Z.of_nat j)
                    (update incTransmitted r)) as [E|[E|E]]; rewrite E;
          cbn [stats update max incErrors set_errors incTransmitted
                 set_transmitted].
        - destruct (iterativeStats_max (latency w (Z.of_nat j))
                      (incReceived (incTransmitted (stats r))))
            as [M|M]; rewrite M.
          + right. exists (Z.of_nat j). split; [lia|reflexivity].
          + cbn. destruct IHj as [Z0|(i & Hi & Hm)]; [now left|].
            right. exists i. split; [lia|exact Hm].
        - destruct IHj as [Z0|(i & Hi & Hm)]; [now left|].
          right. exists i. split; [lia|exact Hm].
        - destruct IHj as [Z0|(i & Hi & Hm)]; [now left|].
          right. exists i. split; [lia|exact Hm]. }
      apply G. }
    unfold packetLoop in *. rewrite probes_S. unfold probe.
    set (r := probes _ _ _ _ _ k) in *.
    destruct (attempt_stats (protoOf f) (requestOf f) (Z.of_nat k)
                (update incTransmitted r)) as [E|[E|E]]; rewrite E;
      cbn [stats update].
    + rewrite iterativeStats_received.
      cbn [received incReceived set_received incTransmitted
             set_transmitted].
      rewrite GoIntFacts.incr_below_max by lia. intros _. split.
      * destruct (Z.eq_dec (received (stats r)) 0) as [R0|R0].
        -- exists (Z.of_nat k). split; [lia|].
           apply iterativeStats_min_first. cbn. now rewrite R0.
        -- destruct (iterativeStats_min_later (latency w (Z.of_nat k))
                       (incReceived (incTransmitted (stats r))))
             as [M|M].
           ++ cbn. rewrite GoIntFacts.incr_below_max by lia. lia.
           ++ exists (Z.of_nat k). split; [lia|exact M].
           ++ rewrite M. cbn.
              destruct IH as [(i & Hi & Hm) _]; [lia|].
              exists i. split; [lia|exact Hm].
      * destruct (iterativeStats_max (latency w (Z.of_nat k))
                    (incReceived (incTransmitted (stats r)))) as [M|M];
          rewrite M.
        -- right. exists (Z.of_nat k). split; [lia|reflexivity].
        -- cbn.
           destruct (Z.eq_dec (received (stats r)) 0) as [R0|R0].
           ++ destruct (Hmax0 R0) as [Z0|(i & Hi & Hm)]; [now left|].
              right. exists i. split; [lia|exact Hm].
           ++ destruct IH as [_ [Z0|(i & Hi & Hm)]]; [lia|now left|].
              right. exists i. split; [lia|exact Hm].
    + cbn [received min max incErrors set_errors incTransmitted
             set_transmitted].
      intros Hpos. destruct (IH Hpos) as [(i & Hi & Hm) Hmx]. split.
      * exists i. split; [lia|exact Hm].
      * destruct Hmx as [Z0|(j & Hj & Hm')]; [now left|].
        right. exists j. split; [lia|exact Hm'].
    + cbn [received min max incTransmitted set_transmitted].
      intros Hpos. destruct (IH Hpos) as [(i & Hi & Hm) Hmx]. split.
      * exists i. split; [lia|exact Hm].
      * destruct Hmx as [Z0|(j & Hj & Hm')]; [now left|].
        right. exists j. split; [lia|exact Hm'].
Qed.

End ReplyFacts.

(* ================================================================== *)
(** * The checksum of the request *)













(* ================================================================== *)
(** * The addresses [ParseIP] returns *)

(** The loop of [parseIPv6] sets two bytes at a time, or the four of a
    trailing IPv4 address, and never more than 16. *)
Lemma parseIPv6Loop_length (fuel : nat) :
  forall s ip e ip' e' rest,
    net.parseIPv6Loop fuel s ip e = Some (ip', e', rest) ->
    Nat.Even (List.length ip) -> (List.length ip <= 16)%nat ->
    Nat.Even (List.length ip') /\ (List.length ip' <= 16)%nat.
Proof.
  induction fuel as [|fuel IH]; intros s ip e ip' e' rest H Hev Hle;
    cbn [net.parseIPv6Loop] in H.
  - injection H as <- <- <-. split; assumption.
  - destruct (Nat.leb_spec 16 (List.length ip)) as [Hge|Hlt];
      [injection H as <- <- <-; split; assumption|].
    destruct (net.hexGroup s 0 0) as [[[off acc] rest0]|]; [|discriminate].
    destruct off as [|off]; [discriminate|].
    destruct Hev as [k Hk].
    assert (Hnext : Nat.Even
                      (List.length (ip ++ [Z.shiftr acc 8; Z.land acc 255]))
                    /\ (List.length (ip ++ [Z.shiftr acc 8; Z.land acc 255])
                        <= 16)%nat)
      by (rewrite length_app; cbn [List.length]; split;
          [exists (S k)|]; lia).
    destruct rest0 as [|c r].
    + injection H as <- <- <-. exact Hnext.
    + destruct_byte c; cbv beta iota in H; try discriminate.
      * (* the dot *)
        destruct (_ && _); [discriminate|].
        destruct (Nat.ltb_spec 16 (List.length ip + 4)); [discriminate|].
        destruct (net.parseIPv4 s) as [ip4|] eqn:H4; [|discriminate].
        injection H as <- <- <-.
        destruct (parseIPv4Loop_shape _ _ _ _ _ _ _ H4 ltac:(cbn; lia))
          as (_ & Hres & _).
        rewrite length_app, Hres. split; [exists (k + 2)%nat|]; lia.
      * (* the colon *)
        destruct r as [|c2 r']; [discriminate|].
        destruct_byte c2; cbv beta iota in H;
          try (eapply IH; [exact H|apply Hnext|apply Hnext]).
        destruct e; [discriminate|].
        destruct r'; [injection H as <- <- <-; exact Hnext|].
        eapply IH; [exact H|apply Hnext|apply Hnext].
Qed.

Lemma parseIPv6_length (s ip : list Z) :
  net.parseIPv6 s = Some ip -> List.length ip = 16%nat.
Proof.
  unfold net.parseIPv6. destruct (net.contains 37 s); [discriminate|].
  destruct (match s with
            | 58 :: 58 :: r => (r, Some O)
            | _ => (s, None)
            end) as [s' e0].
  assert (Hloop :
            match net.parseIPv6Loop 8 s' [] e0 with
            | None => None
            | Some (ip, ellipsis, rest) =>
                match rest with
                | _ :: _ => None
                | [] =>
                    if (List.length ip <? 16)%nat then
                      match ellipsis with
                      | None => None
                      | Some e =>
                          Some (firstn e ip
                                  ++ repeat 0 (16 - List.length ip)
                                  ++ skipn e ip)
                      end
                    else match ellipsis with
                         | Some _ => None
                         | None => Some ip
                         end
                end
            end = Some ip -> List.length ip = 16%nat).
  { destruct (net.parseIPv6Loop 8 s' [] e0) as [[[ip0 e1] rest]|] eqn:HL;
      [|discriminate].
    destruct (parseIPv6Loop_length _ _ _ _ _ _ _ HL
                ltac:(exists O; reflexivity) ltac:(cbn; lia)) as [_ Hle].
    destruct rest; [|discriminate].
    remember (16 - List.length ip0)%nat as pad eqn:Hpad.
    destruct (Nat.ltb_spec (List.length ip0) 16) as [Hlt|Hge];
      destruct e1 as [e1|]; try discriminate.
    - intros H. injection H as <-.
      rewrite !length_app, repeat_length.
      pose proof (f_equal (@List.length Z) (firstn_skipn e1 ip0)) as HF.
      rewrite length_app in HF. lia.
    - intros H. injection H as <-. lia. }
  destruct s' as [|c r]; destruct e0; try exact Hloop.
  intros H. injection H as <-. reflexivity.
Qed.

Lemma parseAddrScan_length (whole s ip : list Z) :
  net.parseAddrScan whole s = Some ip -> List.length ip = 16%nat.
Proof.
  induction s as [|c r IH]; cbn [net.parseAddrScan]; [discriminate|].
  destruct (c =? 46).
  - destruct (net.parseIPv4 whole) as [f|] eqn:H4; [|discriminate].
    intros H. injection H as <-.
    destruct (parseIPv4Loop_shape _ _ _ _ _ _ _ H4 ltac:(cbn; lia))
      as (_ & Hres & _).
    cbn. now rewrite Hres.
  - destruct (c =? 58); [apply parseIPv6_length|].
    destruct (c =? 37); [discriminate|exact IH].
Qed.

(** [net.ParseIP] returns the 16-byte form of every address. *)
Lemma ParseIP_length (s : string) (ip : list Z) :
  net.ParseIP s = Some ip -> List.length ip = 16%nat.
Proof. apply parseAddrScan_length. Qed.

Lemma valIPv6_ParseIP (s : string) :
  valIPv6 s
  = match net.ParseIP s with
    | Some _ => (true, None)
    | None => (false, Some (s ++ " is not a valid IP address")%string)
    end.
Proof.
  unfold valIPv6. destruct (net.ParseIP s) as [ip|] eqn:H; [|reflexivity].
  unfold net.To16. rewrite (ParseIP_length _ _ H). reflexivity.
Qed.

Lemma valIPv4_valIPv6 (s : string) :
  fst (valIPv4 s) = true -> valIPv6 s = (true, None).
Proof.
  rewrite valIPv6_ParseIP. unfold valIPv4.
  destruct (net.ParseIP s); [reflexivity|discriminate].
Qed.

(** X12. [valIPv6] does not tell the families apart: it answers true for
    exactly the texts [net.ParseIP] accepts, because [ParseIP] returns 16
    bytes for every address and [To16] cannot fail on them.  So it never
    answers false without an error, it fails exactly when [valIPv4] fails,
    and whatever [valIPv4] accepts it accepts. *)
Theorem X12_valIPv6_accepts_every_address (s : string) :
  (valIPv6 s = (true, None) <-> net.ParseIP s <> None)
  /\ valIPv6 s <> (false, None)
  /\ snd (valIPv6 s) = snd (valIPv4 s)
  /\ (fst (valIPv4 s) = true -> fst (valIPv6 s) = true).
Proof.
  refine (conj _ (conj _ (conj _ _))).
  - rewrite valIPv6_ParseIP. destruct (net.ParseIP s).
    + split; [discriminate|reflexivity].
    + split; [discriminate|]. intros H. now elim H.
  - rewrite valIPv6_ParseIP. destruct (net.ParseIP s); discriminate.
  - rewrite valIPv6_ParseIP. unfold valIPv4.
    destruct (net.ParseIP s) as [ip|]; [|reflexivity].
    destruct (net.To4 ip); reflexivity.
  - intros H. now rewrite (valIPv4_valIPv6 s H).
Qed.

(* ================================================================== *)
(** * The address [HostToAddr] chooses *)

Section ChoiceFacts.

Variable w : World.

Lemma fst_valIPv6 (s : string) : fst (valIPv6 s) = isAddress s.
Proof.
  rewrite valIPv6_ParseIP. unfold isAddress.
  now destruct (net.ParseIP s).
Qed.

(** With [-4] the loop returns the first address [valIPv4] accepts. *)
Lemma HostToAddr_v4 (host : string) (l : list string) :
  LookupHost w host = Ok l ->
  HostToAddr w host (mkAddrOptions true false)
  = match find (fun ip => fst (valIPv4 ip)) l with
    | Some ip => (mkUnMarshalledAddr ip false, None)
    | None => (noAddr, Some (couldNotResolve host))
    end.
Proof.
  intros H. unfold HostToAddr. cbn [V4 V6 andb negb]. rewrite H. clear H.
  induction l as [|ip l IH]; [reflexivity|].
  cbn [find]. destruct (fst (valIPv4 ip)); [reflexivity|].
  cbn [andb]. exact IH.
Qed.

(** With [-6] it returns the first address [valIPv6] accepts. *)
Lemma HostToAddr_v6 (host : string) (l : list string) :
  LookupHost w host = Ok l ->
  HostToAddr w host (mkAddrOptions false true)
  = match find isAddress l with
    | Some ip => (mkUnMarshalledAddr ip true, None)
    | None => (noAddr, Some (couldNotResolve host))
    end.
Proof.
  intros H. unfold HostToAddr. cbn [V4 V6 andb negb]. rewrite H. clear H.
  induction l as [|ip l IH]; [reflexivity|].
  cbn [find andb]. rewrite fst_valIPv6.
  destruct (isAddress ip); [reflexivity|exact IH].
Qed.

Lemma HostToAddr_empty (host : string) (o : AddrOptions) :
  LookupHost w host = Ok [] -> V4 o && V6 o = false ->
  HostToAddr w host o = (noAddr, Some (couldNotResolve host)).
Proof.
  intros H Ho. unfold HostToAddr. rewrite Ho, H.
  now destruct (negb (V4 o) && negb (V6 o)).
Qed.

Lemma HostToAddr_lookup_error (host : string) (o : AddrOptions)
    (err : error) :
  LookupHost w host = Err err -> V4 o && V6 o = false ->
  HostToAddr w host o = (noAddr, Some err).
Proof. intros H Ho. unfold HostToAddr. now rewrite Ho, H. Qed.

(** X13. What [HostToAddr] returns without an error is an address of the
    answer of the resolver, and the two flags were not both set.  With
    [-4] it is an address [valIPv4] accepts, marked IPv4; an address marked
    IPv6 is one [net.ParseIP] accepts, of whatever family; and an address
    marked IPv4 is never returned under [-6].  With an error the zero
    value is returned. *)
Theorem X13_HostToAddr_takes_from_the_answer (host : string)
    (o : AddrOptions) (a : UnMarshalledAddr) (e : option error) :
  HostToAddr w host o = (a, e) ->
  (e = None ->
   exists l,
     LookupHost w host = Ok l /\ In (Addr a) l
     /\ V4 o && V6 o = false
     /\ (V4 o = true ->
         IsIPv6 a = false /\ fst (valIPv4 (Addr a)) = true)
     /\ (IsIPv6 a = true -> isAddress (Addr a) = true)
     /\ (V6 o = true -> IsIPv6 a = true))
  /\ (e <> None -> a = noAddr).
Proof.
  intros H. destruct o as [v4 v6].
  destruct v4, v6.
  - rewrite HostToAddr_both_flags in H. injection H as <- <-.
    split; [discriminate|reflexivity].
  - destruct (LookupHost w host) as [l|err] eqn:HL.
    + rewrite (HostToAddr_v4 host l HL) in H.
      destruct (find _ l) as [ip|] eqn:Hf.
      * injection H as <- <-. apply find_some in Hf as [Hin Hv].
        split; [|intros He; now elim He]. intros _. exists l.
        cbn [Addr IsIPv6 V4 V6 andb].
        refine (conj eq_refl (conj Hin (conj eq_refl (conj _ (conj _ _)))));
          [split; [reflexivity|exact Hv]|discriminate ..].
      * injection H as <- <-. split; [discriminate|reflexivity].
    + rewrite (HostToAddr_lookup_error host (mkAddrOptions true false) err HL
                 eq_refl) in H.
      injection H as <- <-. split; [discriminate|reflexivity].
  - destruct (LookupHost w host) as [l|err] eqn:HL.
    + rewrite (HostToAddr_v6 host l HL) in H.
      destruct (find _ l) as [ip|] eqn:Hf.
      * injection H as <- <-. apply find_some in Hf as [Hin Hv].
        split; [|intros He; now elim He]. intros _. exists l.
        cbn [Addr IsIPv6 V4 V6 andb].
        refine (conj eq_refl (conj Hin (conj eq_refl (conj _ (conj _ _)))));
          [discriminate|intros _; exact Hv|reflexivity].
      * injection H as <- <-. split; [discriminate|reflexivity].
    + rewrite (HostToAddr_lookup_error host (mkAddrOptions false true) err HL
                 eq_refl) in H.
      injection H as <- <-. split; [discriminate|reflexivity].
  - destruct (LookupHost w host) as [[|ip l]|err] eqn:HL.
    + rewrite (HostToAddr_empty host (mkAddrOptions false false) HL
                 eq_refl) in H.
      injection H as <- <-. split; [discriminate|reflexivity].
    + rewrite (HostToAddr_no_flag w host ip l HL) in H.
      injection H as <- <-.
      split; [|intros He; now elim He]. intros _. exists (ip :: l).
      cbn [Addr IsIPv6 V4 V6 andb].
      refine (conj eq_refl
                (conj (or_introl eq_refl)
                   (conj eq_refl (conj _ (conj _ _)))));
        [discriminate| |discriminate].
      now rewrite fst_valIPv6.
    + rewrite (HostToAddr_lookup_error host (mkAddrOptions false false) err HL
                 eq_refl) in H.
      injection H as <- <-. split; [discriminate|reflexivity].
Qed.

(** X14. The resolver answers with IP addresses.  On such an answer the
    option [-6] selects nothing: with it or with no option at all,
    [HostToAddr] returns the first address marked IPv6, also when it is an
    IPv4 address, and the root command runs the IPv6 handler on it.  Only
    [-4] looks at the family: it returns the first address [valIPv4]
    accepts and fails when there is none. *)
Theorem X14_only_the_option_4_selects (extensionsOK : list Z -> bool)
    (host ip : string) (l : list string) :
  validateHostname host = true ->
  LookupHost w host = Ok (ip :: l) ->
  isAddress ip = true ->
  (forall v6 iface ttl cnt,
     HostToAddr w host (mkAddrOptions false v6)
     = (mkUnMarshalledAddr ip true, None)
     /\ rootCmd extensionsOK w false v6 iface ttl cnt host
        = RanICMP6 (mkICMPInfo ip iface ttl cnt)
            (ICMP6Handler extensionsOK w (mkICMPInfo ip iface ttl cnt)))
  /\ HostToAddr w host (mkAddrOptions true false)
     = match find (fun ip => fst (valIPv4 ip)) (ip :: l) with
       | Some ip4 => (mkUnMarshalledAddr ip4 false, None)
       | None => (noAddr, Some (couldNotResolve host))
       end.
Proof.
  intros Hname HL Hip. split; [|exact (HostToAddr_v4 host _ HL)].
  intros v6 iface ttl cnt.
  assert (H : HostToAddr w host (mkAddrOptions false v6)
              = (mkUnMarshalledAddr ip true, None)).
  { destruct v6.
    - rewrite (HostToAddr_v6 host _ HL). cbn [find]. now rewrite Hip.
    - rewrite (HostToAddr_no_flag w host ip l HL), fst_valIPv6.
      now rewrite Hip. }
  split; [exact H|].
  unfold rootCmd, AddrResolution. rewrite Hname, H. reflexivity.
Qed.

End ChoiceFacts.

(* ================================================================== *)
(** * Literal addresses *)

Lemma AddrResolution_literal (w : World) (host : string)
    (o : AddrOptions) :
  validateHostname host = false ->
  AddrResolution w host o
  = match net.ParseIP host with
    | None =>
        (noAddr, Some (host ++ " is not a valid IP address")%string)
    | Some ip =>
        if V6 o then (mkUnMarshalledAddr host true, None)
        else
          match net.To4 ip with
          | Some _ => (mkUnMarshalledAddr host false, None)
          | None =>
              (noAddr,
               Some ("option -6 specified does not match given IP: "
                       ++ host)%string)
          end
    end.
Proof.
  intros Hname. unfold AddrResolution. rewrite Hname, valIPv6_ParseIP.
  unfold valIPv4.
  destruct (net.ParseIP host) as [ip|]; [|reflexivity].
  destruct (V6 o); [reflexivity|]. cbn [andb].
  destruct (net.To4 ip); reflexivity.
Qed.

Lemma append_length (a b : string) :
  String.length (a ++ b) = (String.length a + String.length b)%nat.
Proof. induction a as [|c a IH]; cbn; [reflexivity|now rewrite IH]. Qed.

(** X15. A host that is no name is taken for a literal address, and the
    option [-4] is never looked at: with [-6] every address [net.ParseIP]
    accepts is returned marked IPv6, without it an IPv4 address is
    returned marked IPv4 and any other address is refused with the message
    about [-6].  The message about [-4] and the warning of the last branch
    are never returned. *)
Theorem X15_literal_address_ignores_the_option_4 (w : World)
    (host : string) (v4 v6 : bool) :
  validateHostname host = false ->
  AddrResolution w host (mkAddrOptions v4 v6)
  = AddrResolution w host (mkAddrOptions (negb v4) v6)
  /\ (forall ip,
        net.ParseIP host = Some ip ->
        AddrResolution w host (mkAddrOptions v4 v6)
        = if v6 then (mkUnMarshalledAddr host true, None)
          else
            match net.To4 ip with
            | Some _ => (mkUnMarshalledAddr host false, None)
            | None =>
                (noAddr,
                 Some ("option -6 specified does not match given IP: "
                         ++ host)%string)
            end)
  /\ (net.ParseIP host = None ->
      AddrResolution w host (mkAddrOptions v4 v6)
      = (noAddr, Some (host ++ " is not a valid IP address")%string))
  /\ snd (AddrResolution w host (mkAddrOptions v4 v6))
     <> Some ("option -4 specified does not match given IP: "
                ++ host)%string
  /\ snd (AddrResolution w host (mkAddrOptions v4 v6))
     <> Some "warning: an unexpected error occurred"%string.
Proof.
  intros Hname. rewrite !(AddrResolution_literal w host _ Hname).
  cbn [V6].
  refine (conj eq_refl (conj _ (conj _ (conj _ _)))).
  - intros ip ->. reflexivity.
  - intros ->. reflexivity.
  - destruct (net.ParseIP host) as [ip|].
    + destruct v6; [discriminate|]. destruct (net.To4 ip); discriminate.
    + cbn [snd]. intros H. injection H as H.
      apply (f_equal String.length) in H.
      rewrite !append_length in H. cbn in H. lia.
  - destruct (net.ParseIP host) as [ip|].
    + destruct v6; [discriminate|]. destruct (net.To4 ip); discriminate.
    + cbn [snd]. intros H. injection H as H.
      do 11 (destruct host as [|? host]; [discriminate|]).
      destruct host as [|? host]; [discriminate|].
      apply (f_equal String.length) in H. cbn in H.
      rewrite append_length in H. cbn in H. lia.
Qed.

(* ================================================================== *)
(** * Names and addresses *)

Lemma trimLeft_bytes (n : nat) :
  forall l, (List.length l <= n)%nat ->
    (forall x, In x l -> In x (strings.trimLeft l) \/ spaceByte x)
    /\ (forall x, In x (strings.trimLeft l) -> In x l).
Proof.
  induction n as [|n IH]; intros l Hl.
  - destruct l; [|cbn in Hl; lia]. split; intros x []. 
  - destruct l as [|c l1]; [split; intros x []|].
    cbn [strings.trimLeft]. crack.
    all: try (split; intros x Hin; [left; exact Hin|exact Hin]).
    all: cbn [List.length] in Hl.
    all: split; intros x Hin;
      [ peel Hin;
        match goal with
        | |- In _ (strings.trimLeft ?r) \/ _ =>
            exact (proj1 (IH r ltac:(lia)) x Hin)
        end
      | match type of Hin with
        | In _ (strings.trimLeft ?r) =>
            apply (proj2 (IH r ltac:(lia))) in Hin
        end; cbn [In]; tauto ].
Qed.

Lemma trimRightRev_bytes (n : nat) :
  forall l, (List.length l <= n)%nat ->
    (forall x, In x l -> In x (strings.trimRightRev l) \/ spaceByte x)
    /\ (forall x, In x (strings.trimRightRev l) -> In x l).
Proof.
  induction n as [|n IH]; intros l Hl.
  - destruct l; [|cbn in Hl; lia]. split; intros x [].
  - destruct l as [|c l1]; [split; intros x []|].
    cbn [strings.trimRightRev]. crack.
    all: try (split; intros x Hin; [left; exact Hin|exact Hin]).
    all: cbn [List.length] in Hl.
    all: split; intros x Hin;
      [ peel Hin;
        match goal with
        | |- In _ (strings.trimRightRev ?r) \/ _ =>
            exact (proj1 (IH r ltac:(lia)) x Hin)
        end
      | match type of Hin with
        | In _ (strings.trimRightRev ?r) =>
            apply (proj2 (IH r ltac:(lia))) in Hin
        end; cbn [In]; tauto ].
Qed.

Lemma nullable_Lang (r : regexp.Regexp) :
  regexp.nullable r = true -> Lang r [].
Proof.
  induction r as [| |p|a IHa b IHb|a IHa b IHb|a IHa];
    cbn [regexp.nullable]; intros H; try discriminate.
  - constructor.
  - apply andb_true_iff in H as [Ha Hb].
    change (@nil ascii) with (@nil ascii ++ []).
    constructor; auto.
  - apply orb_true_iff in H as [Ha|Hb];
      [apply LangAltL|apply LangAltR]; auto.
  - constructor.
Qed.

Lemma deriv_Lang (c : ascii) (r : regexp.Regexp) :
  forall s, Lang (regexp.deriv c r) s -> Lang r (c :: s).
Proof.
  induction r as [| |p|a IHa b IHb|a IHa b IHb|a IHa];
    cbn [regexp.deriv]; intros s H.
  - inversion H.
  - inversion H.
  - destruct (p c) eqn:Hp; inversion H; subst. now constructor.
  - destruct (regexp.nullable a) eqn:Hn.
    + inversion H as [| | |? ? ? H1|? ? ? H1| |]; subst.
      * inversion H1 as [| |? ? s1 s2 Ha Hb| | | |]; subst.
        change (c :: s1 ++ s2) with ((c :: s1) ++ s2).
        constructor; auto.
      * change (c :: s) with ([] ++ c :: s).
        constructor; [now apply nullable_Lang|auto].
    + inversion H as [| |? ? s1 s2 Ha Hb| | | |]; subst.
      change (c :: s1 ++ s2) with ((c :: s1) ++ s2).
      constructor; auto.
  - inversion H; subst; [apply LangAltL|apply LangAltR]; auto.
  - inversion H as [| |? ? s1 s2 Ha Hb| | | |]; subst.
    change (c :: s1 ++ s2) with ((c :: s1) ++ s2).
    constructor; auto.
Qed.

(** The matcher by derivatives accepts only the language. *)
Lemma MatchString_Lang (s : string) :
  forall r, regexp.MatchString r s = true ->
            Lang r (list_ascii_of_string s).
Proof.
  induction s as [|c s IH]; cbn [regexp.MatchString list_ascii_of_string];
    intros r H.
  - now apply nullable_Lang.
  - apply deriv_Lang. now apply IH.
Qed.

Lemma Lang_classes (P : ascii -> Prop) (r : regexp.Regexp)
    (s : list ascii) :
  Lang r s -> classes P r -> Forall P s.
Proof.
  induction 1 as [|p c Hp|a b s1 s2 _ IH1 _ IH2|a b s _ IH|a b s _ IH
                 |a|a s1 s2 _ IH1 _ IH2];
    cbn [classes]; intros Hc.
  - constructor.
  - constructor; [auto|constructor].
  - apply Forall_app. split; [apply IH1|apply IH2]; tauto.
  - apply IH; tauto.
  - apply IH; tauto.
  - constructor.
  - apply Forall_app. split; [apply IH1|apply IH2]; assumption.
Qed.

Lemma alnum_hostChar (c : ascii) : regexp.alnum c = true -> hostChar c.
Proof. unfold hostChar, regexp.alnumDash. now intros ->. Qed.

Lemma hostnameRegex_Lang (s : list ascii) :
  Lang hostnameRegex s ->
  Forall hostChar s /\ exists c, In c s /\ regexp.alpha c = true.
Proof.
  intros H. split.
  - apply (Lang_classes hostChar _ _ H). cbn.
    assert (Ha : forall c, regexp.alpha c = true -> hostChar c)
      by (intros c Hc; apply alnum_hostChar; unfold regexp.alnum;
          now rewrite Hc).
    assert (Hd : forall c, regexp.alnumDash c = true -> hostChar c)
      by (intros c Hc; unfold hostChar; now rewrite Hc).
    assert (Hdot : forall c, regexp.dot c = true -> hostChar c)
      by (intros c Hc; unfold hostChar; rewrite Hc; apply orb_true_r).
    pose proof alnum_hostChar. tauto.
  - unfold hostnameRegex in H.
    inversion H as [| |? ? s1 s2 _ H2| | | |]; subst.
    inversion H2 as [| |? ? s3 s4 H3 _| | | |]; subst.
    inversion H3 as [|? c Hc| | | | |]; subst.
    exists c. split; [|exact Hc].
    apply in_or_app. right. now left.
Qed.

Lemma trimmed_bytes (l : list Z) :
  (forall x, In x l -> In x (trimmed l) \/ spaceByte x)
  /\ (forall x, In x (trimmed l) -> In x l).
Proof.
  unfold trimmed.
  destruct (trimLeft_bytes _ l (le_n _)) as [L1 L2].
  destruct (trimRightRev_bytes _ (rev (strings.trimLeft l)) (le_n _))
    as [R1 R2].
  split; intros x Hin.
  - destruct (L1 x Hin) as [Hl|Hs]; [|now right].
    apply in_rev in Hl. destruct (R1 x Hl) as [Hr|Hs]; [|now right].
    left. now apply in_rev in Hr.
  - apply in_rev in Hin. apply R2 in Hin. apply in_rev in Hin. auto.
Qed.

Lemma parseAddrScan_no_colon (whole s : list Z) :
  ~ In 58 s -> net.parseIPv4 whole = None ->
  net.parseAddrScan whole s = None.
Proof.
  intros Hc H4. induction s as [|c r IH]; [reflexivity|].
  cbn [net.parseAddrScan]. rewrite H4.
  destruct (c =? 46); [reflexivity|].
  destruct (Z.eqb_spec c 58) as [->|_]; [elim Hc; now left|].
  destruct (c =? 37); [reflexivity|].
  apply IH. intros Hin. apply Hc. now right.
Qed.

Lemma alpha_not_dotted (c : ascii) :
  regexp.alpha c = true -> ~ dotted (Z.of_nat (nat_of_ascii c)).
Proof.
  unfold regexp.alpha, regexp.between, dotted, net.isDigit.
  intros H [Hd|Hd].
  - apply andb_true_iff in Hd as [_ Hd]. apply Z.leb_le in Hd.
    apply orb_true_iff in H as [H|H];
      apply andb_true_iff in H as [H _]; apply Nat.leb_le in H; lia.
  - apply orb_true_iff in H as [H|H];
      apply andb_true_iff in H as [H _]; apply Nat.leb_le in H; lia.
Qed.

Lemma ascii_of_byte (c : ascii) :
  ascii_of_nat (Z.to_nat (Z.of_nat (nat_of_ascii c))) = c.
Proof. now rewrite Nat2Z.id, ascii_nat_embedding. Qed.

Lemma validateHostname_Lang (host : string) :
  validateHostname host = true ->
  Lang hostnameRegex
    (map (fun z => ascii_of_nat (Z.to_nat z))
       (trimmed (bytes_of_string host))).
Proof.
  unfold validateHostname. intros H.
  destruct (strings.ContainsDotDot _); [discriminate|].
  apply MatchString_Lang in H. unfold strings.TrimSpace, string_of_bytes in H.
  now rewrite list_ascii_of_string_of_list_ascii in H.
Qed.

Lemma validateHostname_not_address (host : string) :
  validateHostname host = true -> net.ParseIP host = None.
Proof.
  intros H. apply validateHostname_Lang in H.
  apply hostnameRegex_Lang in H as [Hall (c & Hc & Halpha)].
  destruct (trimmed_bytes (bytes_of_string host)) as [T1 T2].
  unfold net.ParseIP. apply parseAddrScan_no_colon.
  - intros Hin. destruct (T1 58 Hin) as [Ht|Hs].
    + rewrite Forall_forall in Hall.
      specialize (Hall _ (in_map (fun z => ascii_of_nat (Z.to_nat z))
                            _ _ Ht)).
      vm_compute in Hall. discriminate.
    + unfold spaceByte in Hs. lia.
  - destruct (net.parseIPv4 (bytes_of_string host)) as [f|] eqn:H4;
      [|reflexivity].
    destruct (parseIPv4Loop_shape _ _ _ _ _ _ _ H4 ltac:(cbn; lia))
      as (Hdot & _).
    apply in_map_iff in Hc as (y & <- & Hy). apply T2 in Hy.
    rewrite Forall_forall in Hdot. specialize (Hdot y Hy).
    unfold bytes_of_string in Hy.
    apply in_map_iff in Hy as (c' & <- & _).
    rewrite ascii_of_byte in Halpha.
    now elim (alpha_not_dotted c' Halpha).
Qed.

Lemma Lang_star_alpha (s : list ascii) :
  Lang (regexp.Star (regexp.Class regexp.alpha)) s ->
  Forall (fun c => regexp.alpha c = true) s.
Proof.
  intros H. apply (Lang_classes _ _ _ H). cbn. auto.
Qed.

(** A host name ends with a letter. *)
Lemma hostnameRegex_last (s : list ascii) :
  Lang hostnameRegex s ->
  exists s0 c, s = s0 ++ [c] /\ regexp.alpha c = true.
Proof.
  unfold hostnameRegex. intros H.
  inversion H as [| |? ? s1 s2 _ H2| | | |]; subst.
  inversion H2 as [| |? ? s3 s4 H3 H4| | | |]; subst.
  inversion H3 as [|? c Hc| | | | |]; subst.
  apply Lang_star_alpha in H4.
  destruct (exists_last (l := c :: s4) ltac:(discriminate))
    as (s0 & d & Hd).
  exists (s1 ++ s0), d. cbn [app]. rewrite Hd, app_assoc.
  split; [reflexivity|].
  assert (Hin : In d (c :: s4)) by (rewrite Hd; apply in_or_app; right;
                                    now left).
  destruct Hin as [<-|Hin]; [exact Hc|].
  rewrite Forall_forall in H4. now apply H4.
Qed.

(** X16. A host that [validateHostname] accepts is, once trimmed, made of
    letters, digits, hyphens and dots and ends with a letter; so it is
    never an address: [net.ParseIP] refuses it, white space included.
    The two ways of [AddrResolution] exclude each other, and what
    [net.ParseIP] accepts is never sent to the resolver. *)
Theorem X16_a_name_is_never_an_address (host : string) :
  validateHostname host = true ->
  Forall hostChar (list_ascii_of_string (strings.TrimSpace host))
  /\ (exists s0 c,
        list_ascii_of_string (strings.TrimSpace host) = s0 ++ [c]
        /\ regexp.alpha c = true)
  /\ net.ParseIP host = None
  /\ valIPv4 host = valIPv6 host.
Proof.
  intros H. pose proof (validateHostname_not_address host H) as Hno.
  pose proof (validateHostname_Lang host H) as HL.
  assert (Ht : list_ascii_of_string (strings.TrimSpace host)
               = map (fun z => ascii_of_nat (Z.to_nat z))
                   (trimmed (bytes_of_string host)))
    by (unfold strings.TrimSpace, string_of_bytes;
        apply list_ascii_of_string_of_list_ascii).
  rewrite Ht.
  refine (conj (proj1 (hostnameRegex_Lang _ HL))
            (conj (hostnameRegex_last _ HL) (conj Hno _))).
  unfold valIPv4, valIPv6. now rewrite Hno.
Qed.

Lemma address_not_name (addr : string) (ip : list Z) :
  net.ParseIP addr = Some ip -> validateHostname addr = false.
Proof.
  intros H. destruct (validateHostname addr) eqn:Hname; [|reflexivity].
  rewrite (validateHostname_not_address addr Hname) in H. discriminate.
Qed.

(** X17. The root command on an address: whatever [net.ParseIP] accepts
    is pinged as it stands, without a look at the resolver or at [-4].
    With [-6] the IPv6 handler runs, also on an IPv4 address; without
    [-6] the IPv4 handler runs on an IPv4 address, and an IPv6 address is
    refused before any handler runs.  The flags [-I], [-t] and [-c] reach
    the handler unchanged. *)
Theorem X17_rootCmd_on_an_address (extensionsOK : list Z -> bool)
    (w : World) (v4 v6 : bool) (iface : string) (ttl cnt : Z)
    (addr : string) (ip : list Z) :
  net.ParseIP addr = Some ip ->
  rootCmd extensionsOK w v4 v6 iface ttl cnt addr
  = let info := mkICMPInfo addr iface ttl cnt in
    if v6 then RanICMP6 info (ICMP6Handler extensionsOK w info)
    else
      match net.To4 ip with
      | Some _ => RanICMP4 info (ICMP4Handler extensionsOK w info)
      | None =>
          ResolutionFailed
            ("option -6 specified does not match given IP: " ++ addr)
      end.
Proof.
  intros H. unfold rootCmd.
  rewrite (AddrResolution_literal w addr _ (address_not_name addr ip H)), H.
  cbn [V6]. destruct v6; [reflexivity|].
  destruct (net.To4 ip); reflexivity.
Qed.

(* ================================================================== *)
(** * The test for consecutive dots *)

Lemma ContainsDotDot_nondot (c : ascii) (s : string) :
  regexp.dot c = false ->
  strings.ContainsDotDot (String c s) = strings.ContainsDotDot s.
Proof.
  destruct c as [[] [] [] [] [] [] [] []]; intros H;
    first [discriminate H|reflexivity].
Qed.

Lemma ContainsDotDot_dot (d : ascii) (s : string) :
  strings.ContainsDotDot (String "." (String d s))
  = regexp.dot d || strings.ContainsDotDot (String d s).
Proof.
  destruct d as [[] [] [] [] [] [] [] []]; reflexivity.
Qed.

Lemma dot_eq (c : ascii) : regexp.dot c = true -> c = "."%char.
Proof. unfold regexp.dot. apply Ascii.eqb_eq. Qed.

Lemma ContainsDotDot_dotdot (s : string) :
  strings.ContainsDotDot s = dotdot (list_ascii_of_string s).
Proof.
  induction s as [|c s IH]; [reflexivity|].
  destruct (regexp.dot c) eqn:Hc.
  - apply dot_eq in Hc. subst c. destruct s as [|d s]; [reflexivity|].
    rewrite ContainsDotDot_dot, IH. reflexivity.
  - rewrite (ContainsDotDot_nondot c s Hc), IH.
    cbn [list_ascii_of_string dotdot]. rewrite Hc.
    now destruct (list_ascii_of_string s).
Qed.

Lemma dotdot_app (a b : list ascii) :
  dotdot (a ++ b) = dotdot a || dotdot b || (lastDot a && firstDot b).
Proof.
  induction a as [|c a IH].
  - cbn. now rewrite orb_false_r.
  - destruct a as [|d a].
    + unfold lastDot. destruct b as [|e b].
      * cbn. now rewrite andb_false_r.
      * change (dotdot ([c] ++ e :: b))
          with ((regexp.dot c && regexp.dot e) || dotdot (e :: b)).
        change (dotdot [c]) with false.
        change (firstDot (rev [c])) with (regexp.dot c).
        change (firstDot (e :: b)) with (regexp.dot e).
        generalize (dotdot (e :: b)). intros x.
        destruct (regexp.dot c), (regexp.dot e), x; reflexivity.
    + change ((c :: d :: a) ++ b) with (c :: (d :: a) ++ b).
      change (dotdot (c :: (d :: a) ++ b))
        with ((regexp.dot c && regexp.dot d) || dotdot ((d :: a) ++ b)).
      rewrite IH.
      change (dotdot (c :: d :: a))
        with ((regexp.dot c && regexp.dot d) || dotdot (d :: a)).
      assert (Hl : lastDot (c :: d :: a) = lastDot (d :: a)).
      { unfold lastDot. cbn [rev].
        destruct (rev a ++ [d]) eqn:E; [|reflexivity].
        now destruct (rev a). }
      rewrite Hl. now rewrite !orb_assoc.
Qed.

Lemma nondot_facts (s : list ascii) :
  Forall (fun c => regexp.dot c = false) s ->
  dotdot s = false /\ firstDot s = false /\ lastDot s = false.
Proof.
  intros H. refine (conj _ (conj _ _)).
  - induction H as [|c s Hc Hs IH]; [reflexivity|].
    destruct s as [|d s]; [reflexivity|].
    change (dotdot (c :: d :: s))
      with ((regexp.dot c && regexp.dot d) || dotdot (d :: s)).
    now rewrite Hc, IH.
  - destruct H; [reflexivity|assumption].
  - unfold lastDot. apply Forall_rev in H.
    destruct H; [reflexivity|assumption].
Qed.

Lemma alnumDash_nondot (c : ascii) :
  regexp.alnumDash c = true -> regexp.dot c = false.
Proof.
  intros H. destruct (regexp.dot c) eqn:Hd; [|reflexivity].
  apply dot_eq in Hd. subst c. discriminate H.
Qed.

(** A label of a host name, with the dot that closes it. *)
Lemma label_dot_facts (a : regexp.Regexp) (s : list ascii) :
  classes (fun c => regexp.dot c = false) a ->
  (forall t, Lang a t -> t <> []) ->
  Lang (regexp.Cat a (regexp.Class regexp.dot)) s ->
  dotdot s = false /\ firstDot s = false.
Proof.
  intros Hc Hne H.
  inversion H as [| |? ? s1 s2 H1 H2| | | |]; subst.
  inversion H2 as [|? c Hdot| | | | |]; subst.
  pose proof (Lang_classes _ _ _ H1 Hc) as Hall.
  destruct (nondot_facts s1 Hall) as (Hdd & Hf & Hl).
  rewrite dotdot_app, Hdd, Hl. split; [reflexivity|].
  specialize (Hne s1 H1). destruct s1; [now elim Hne|exact Hf].
Qed.

Lemma star_facts (u : regexp.Regexp) (s : list ascii) :
  (forall t, Lang u t -> dotdot t = false /\ firstDot t = false) ->
  Lang (regexp.Star u) s ->
  dotdot s = false /\ firstDot s = false.
Proof.
  intros Hu H. remember (regexp.Star u) as r eqn:Hr.
  induction H as [| | | | |a|a s1 s2 H1 _ H2 IH2]; try discriminate.
  - split; reflexivity.
  - injection Hr as ->. destruct (Hu s1 H1) as [Hd1 Hf1].
    destruct (IH2 eq_refl) as [Hd2 Hf2].
    rewrite dotdot_app, Hd1, Hd2, Hf2, andb_false_r.
    split; [reflexivity|]. destruct s1; assumption.
Qed.

Lemma hostnameRegex_no_dotdot (s : list ascii) :
  Lang hostnameRegex s -> dotdot s = false.
Proof.
  unfold hostnameRegex. intros H.
  inversion H as [| |? ? s1 s2 H1 H2| | | |]; subst.
  assert (Htail : Forall (fun c => regexp.dot c = false) s2).
  { apply (Lang_classes _ _ _ H2). cbn.
    assert (forall c, regexp.alpha c = true -> regexp.dot c = false)
      by (intros c Hc; apply alnumDash_nondot;
          unfold regexp.alnumDash, regexp.alnum; now rewrite Hc).
    auto. }
  destruct (nondot_facts s2 Htail) as (Hd2 & Hf2 & _).
  assert (Hpre : dotdot s1 = false /\ firstDot s1 = false).
  { apply (fun Hu => star_facts _ _ Hu H1). intros t Ht.
    apply (fun Hc Hne => label_dot_facts _ t Hc Hne Ht).
    - assert (forall c, regexp.alnum c = true -> regexp.dot c = false)
        by (intros c Hc; apply alnumDash_nondot;
            unfold regexp.alnumDash; now rewrite Hc).
      pose proof alnumDash_nondot. cbn. tauto.
    - intros l Hl.
      inversion Hl as [| | |? ? ? Ha|? ? ? Ha| |]; subst.
      + inversion Ha; subst. discriminate.
      + inversion Ha as [| |? ? l1 l2 Hb _| | | |]; subst.
        inversion Hb; subst. discriminate. }
  destruct Hpre as [Hd1 _].
  now rewrite dotdot_app, Hd1, Hd2, Hf2, andb_false_r.
Qed.

(** X8. The test for consecutive dots in [validateHostname] never
    decides: the expression asks for a letter or a digit before every dot,
    so it refuses every host with two dots in a row by itself, and
    [validateHostname] is the match of the trimmed host. *)
Theorem X8_the_test_for_two_dots_is_redundant (host : string) :
  validateHostname host
  = regexp.MatchString hostnameRegex (strings.TrimSpace host)
  /\ (strings.ContainsDotDot (strings.TrimSpace host) = true ->
      validateHostname host = false
      /\ regexp.MatchString hostnameRegex (strings.TrimSpace host) = false).
Proof.
  assert (H : strings.ContainsDotDot (strings.TrimSpace host) = true ->
              regexp.MatchString hostnameRegex (strings.TrimSpace host)
              = false).
  { intros Hdd.
    destruct (regexp.MatchString _ _) eqn:Hm; [|reflexivity].
    apply MatchString_Lang, hostnameRegex_no_dotdot in Hm.
    rewrite ContainsDotDot_dotdot in Hdd. congruence. }
  unfold validateHostname.
  destruct (strings.ContainsDotDot (strings.TrimSpace host)) eqn:Hdd.
  - rewrite (H eq_refl). split; [reflexivity|]. intros _. now split.
  - split; [reflexivity|discriminate].
Qed.

(* ================================================================== *)
(** * The lines no run prints *)

Section DeadLines.

Variable extensionsOK : list Z -> bool.
Variable w : World.

Lemma printICMPResponse_live proto data peer seq ttl ms r :
  exists c,
    stdout (printICMPResponse extensionsOK proto data peer seq ttl ms r)
    = stdout r ++ [c]
    /\ neverPrinted c = false.
Proof.
  unfold printICMPResponse.
  destruct (icmp.ParseMessage extensionsOK proto data) as [reply|err] eqn:E;
    [|eexists; split; reflexivity].
  cbv zeta. destruct (isCase _ _) eqn:Hc.
  - apply isCase_In in Hc.
    destruct (ParseMessage_echo_reply extensionsOK proto data reply E Hc)
      as (id & echoSeq & payload & ->).
    eexists; split; reflexivity.
  - split_ifs; eexists; split; reflexivity.
Qed.

Lemma probes_live f (info : ICMPInfo) (k : nat) :
  Forall (fun c => neverPrinted c = false)
    (stdout (probes extensionsOK w (protoOf f) (requestOf f)
               (mkRun (startOf f) [banner info]) k)).
Proof.
  induction k as [|k IH].
  - cbn [probes rangeFrom stdout]. constructor; [|constructor].
    unfold banner. destruct (negb _); reflexivity.
  - rewrite probes_S. unfold probe, attempt.
    destruct (constructMarshalledMessage_ok (Getpid w) f (Z.of_nat k))
      as [request ->].
    destruct (sendICMPRequest _ _) as [err|].
    { cbn [stdout say update]. apply Forall_app. split; [exact IH|].
      constructor; [reflexivity|constructor]. }
    destruct (recvICMPRequest _ _) as [[[[reply ms] ttl] peer] [err|]].
    + unfold printReadError.
      destruct (isTimeout err); cbn [stdout say update];
        (apply Forall_app; split; [exact IH|]);
        (constructor; [reflexivity|constructor]).
    + destruct (printICMPResponse_live (protoOf f) reply peer (Z.of_nat k)
                  ttl ms
                  (update incTransmitted
                     (probes extensionsOK w (protoOf f) (requestOf f)
                        (mkRun (startOf f) [banner info]) k)))
        as (c & -> & Hc).
      cbn [stdout update]. apply Forall_app. split; [exact IH|].
      constructor; [exact Hc|constructor].
Qed.

(** X18. Two of the error lines of the engine are never printed, by any
    run of either handler on any network: the encoding of the echo request
    cannot fail, so no run prints that the message could not be
    generated; and a reply of the echo reply type always parses to an
    echo body, so no run prints that the echo reply is invalid. *)
Theorem X18_two_error_lines_are_never_printed (f : Family)
    (info : ICMPInfo) :
  Forall (fun c => neverPrinted c = false)
    (stdout (fst (ICMPHandler f extensionsOK w info))).
Proof.
  pose proof (probes_live f info (Z.to_nat (CNT info))) as Hloop.
  destruct f;
    unfold ICMPHandler, ICMP4Handler, ICMP6Handler, handler, getInterface;
    cbn [protoOf requestOf startOf] in Hloop;
    (destruct (String.eqb (Iface info) "");
     [|destruct (InterfaceByName w (Iface info)) as [idx|err]]);
    (try destruct (ListenPacket w _ _) as [err'|]);
    cbn [fst stdout say update stats];
    try (unfold PrintStatistics; destruct (0 <? _));
    cbn [fst stdout];
    repeat first
      [ apply Forall_app; split
      | exact Hloop
      | apply Forall_cons
      | apply Forall_nil
      | (unfold banner; destruct (negb _); reflexivity)
      | reflexivity ].
Qed.

End DeadLines.

(* ================================================================== *)
(** * More instances *)

Lemma X2_witness :
  let r := packetLoop (fun _ => true) (lossyWorld IPv4) IPv4
             (mkICMPInfo "192.0.2.1" "" 64 5) 5 in
  received (stats r) + errors (stats r) = transmitted (stats r).
Proof.
  assert (H : Z.of_nat 5 <= GoInt.max_int) by (vm_compute; discriminate).
  pose proof (X2_probes_are_accounted (fun _ => true) (lossyWorld IPv4) IPv4
                (mkICMPInfo "192.0.2.1" "" 64 5) 5 H) as HX.
  cbv zeta in HX. destruct HX as [_ HX]. exact (HX eq_refl).
Defined.


Lemma X9_witness :
  is_nan
    (mean (stats (fst (ICMPHandler IPv4 (fun _ => true) silentWorld
                         (mkICMPInfo "192.0.2.1" "" 64 1))))) = true.
Proof.
  assert (H : 0 <= CNT (mkICMPInfo "192.0.2.1" "" 64 1) <= GoInt.max_int)
    by (vm_compute; split; discriminate).
  assert (Hret : snd (ICMPHandler IPv4 (fun _ => true) silentWorld
                        (mkICMPInfo "192.0.2.1" "" 64 1)) = Returned)
    by (vm_compute; reflexivity).
  assert (Hrecv : received
                    (stats (packetLoop (fun _ => true) silentWorld IPv4
                              (mkICMPInfo "192.0.2.1" "" 64 1)
                              (Z.to_nat
                                 (CNT (mkICMPInfo "192.0.2.1" "" 64 1)))))
                  = 0)
    by (vm_compute; reflexivity).
  pose proof (X9_run_without_reply (fun _ => true) silentWorld IPv4
                (mkICMPInfo "192.0.2.1" "" 64 1) H) as HX.
  cbv zeta in HX. destruct (HX Hret Hrecv) as [Hmean _]. exact Hmean.
Defined.

Lemma X10_witness :
  exists i,
    0 <= i < Z.of_nat 5
    /\ min (stats (packetLoop (fun _ => true) (lossyWorld IPv4) IPv4
                     (mkICMPInfo "192.0.2.1" "" 64 5) 5))
       = latency (lossyWorld IPv4) i.
Proof.
  assert (H : Z.of_nat 5 <= GoInt.max_int) by (vm_compute; discriminate).
  assert (Hrecv : 0 < received
                        (stats (packetLoop (fun _ => true) (lossyWorld IPv4)
                                  IPv4 (mkICMPInfo "192.0.2.1" "" 64 5) 5)))
    by (vm_compute; reflexivity).
  pose proof (X10_min_and_max_are_latencies (fun _ => true)
                (lossyWorld IPv4) IPv4 (mkICMPInfo "192.0.2.1" "" 64 5) 5 H)
    as HX.
  cbv zeta in HX. destruct (HX Hrecv) as [Hmin _]. exact Hmin.
Defined.

Lemma X13_witness :
  exists l,
    LookupHost dualStackWorld "example.com" = Ok l
    /\ In "93.184.216.34"%string l.
Proof.
  assert (H : HostToAddr dualStackWorld "example.com"
                (mkAddrOptions true false)
              = (mkUnMarshalledAddr "93.184.216.34" false, None))
    by (vm_compute; reflexivity).
  pose proof (X13_HostToAddr_takes_from_the_answer dualStackWorld
                "example.com" (mkAddrOptions true false) _ _ H) as [HX _].
  destruct (HX eq_refl) as (l & HL & Hin & _).
  exists l. split; [exact HL|exact Hin].
Defined.

Lemma X14_witness :
  HostToAddr dualStackWorld "example.com" (mkAddrOptions false true)
  = (mkUnMarshalledAddr "2001:db8::1" true, None).
Proof.
  assert (Hname : validateHostname "example.com" = true)
    by (vm_compute; reflexivity).
  assert (Hip : isAddress "2001:db8::1" = true)
    by (vm_compute; reflexivity).
  pose proof (X14_only_the_option_4_selects dualStackWorld (fun _ => true)
                "example.com" "2001:db8::1" ["93.184.216.34"%string]
                Hname eq_refl Hip) as [HX _].
  exact (proj1 (HX true EmptyString 64 5)).
Defined.

Lemma X15_witness :
  AddrResolution silentWorld "8.8.8.8" (mkAddrOptions true false)
  = AddrResolution silentWorld "8.8.8.8" (mkAddrOptions false false).
Proof.
  assert (Hname : validateHostname "8.8.8.8" = false)
    by (vm_compute; reflexivity).
  pose proof (X15_literal_address_ignores_the_option_4 silentWorld
                "8.8.8.8" true false Hname) as [HX _].
  exact HX.
Defined.

Lemma X16_witness : net.ParseIP "example.com" = None.
Proof.
  assert (Hname : validateHostname "example.com" = true)
    by (vm_compute; reflexivity).
  pose proof (X16_a_name_is_never_an_address "example.com" Hname)
    as (_ & _ & HX & _).
  exact HX.
Defined.

Lemma X17_witness :
  rootCmd (fun _ => true) silentWorld false false "" 64 5 "2001:db8::1"
  = ResolutionFailed
      "option -6 specified does not match given IP: 2001:db8::1".
Proof.
  assert (Hip : net.ParseIP "2001:db8::1"
                = Some [32; 1; 13; 184; 0; 0; 0; 0; 0; 0; 0; 0; 0; 0; 0; 1])
    by (vm_compute; reflexivity).
  pose proof (X17_rootCmd_on_an_address (fun _ => true) silentWorld false
                false "" 64 5 "2001:db8::1" _ Hip) as HX.
  exact HX.
Defined.
